(** * fileOrg.py: a polling file organiser, embedded and verified

    The script watches a directory, moves every file whose name starts with
    a registered prefix into the directory of that prefix (dropping the
    text "<prefix> " from its name) and, when asked to, records a digest of
    the moved file in a ledger.

    The embedding follows the script top to bottom: the Python string and
    path primitives it calls, the file tree and the three resources
    (config.ini, filePaths.json, fileHashes.json), the module globals, and
    then [hashFile], [main] and the top-level program with its [while]
    loop.  Effects are threaded through a state-and-exception monad over a
    [World]; every call that touches the outside world also leaves an
    [event] in a trace, so that "never happens" properties can be stated. *)

From Stdlib Require Import Strings.String Strings.Ascii Strings.Byte List Arith Lia.
From stdpp Require Import base option list gmap sets strings.

(** ** Python strings *)

Module PyStr.

(** [file.startswith(b)] *)
Fixpoint startswith (file b : string) : bool :=
  match b with
  | EmptyString => true
  | String cb b' =>
      match file with
      | EmptyString => false
      | String cf file' => if Ascii.eqb cf cb then startswith file' b' else false
      end
  end.

(** [s.replace(old, "")]: scan [s] from the left, delete every occurrence of
    [old] that does not overlap an occurrence already deleted.  [skip]
    counts the characters of the current occurrence still to be dropped.
    With [old = ""] Python inserts the replacement between the characters;
    the replacement being empty, the string comes back unchanged. *)
Fixpoint replace_from (old : string) (skip : nat) (s : string) : string :=
  match s with
  | EmptyString => EmptyString
  | String c s' =>
      match skip with
      | S k => replace_from old k s'
      | O =>
          match old with
          | EmptyString => String c (replace_from old O s')
          | String _ old' =>
              if startswith s old
              then replace_from old (String.length old') s'
              else String c (replace_from old O s')
          end
      end
  end.

Definition replace (s old : string) : string := replace_from old O s.

(** [old in s] *)
Fixpoint contains (s old : string) : bool :=
  startswith s old ||
  match s with
  | EmptyString => false
  | String _ s' => contains s' old
  end.

(** [s.endswith("/")] *)
Fixpoint endswith_sep (s : string) : bool :=
  match s with
  | EmptyString => false
  | String c EmptyString => Ascii.eqb c "/"
  | String _ s' => endswith_sep s'
  end.

(** [s.rstrip("/")] *)
Fixpoint rstrip_sep (s : string) : string :=
  match s with
  | EmptyString => EmptyString
  | String c s' =>
      match rstrip_sep s' with
      | EmptyString => if Ascii.eqb c "/" then EmptyString else String c EmptyString
      | r => String c r
      end
  end.

(** [s[s.rfind("/") + 1:]]: the text after the last separator. *)
Fixpoint after_last_sep (s : string) : string :=
  match s with
  | EmptyString => EmptyString
  | String c s' =>
      if contains s' "/" then after_last_sep s'
      else if Ascii.eqb c "/" then s' else s
  end.

(** [s[:s.rfind("/") + 1]]: the text up to and including the last
    separator. *)
Fixpoint upto_last_sep (s : string) : string :=
  match s with
  | EmptyString => EmptyString
  | String c s' =>
      if contains s' "/" then String c (upto_last_sep s')
      else if Ascii.eqb c "/" then String c EmptyString else EmptyString
  end.

(** [c.lower()] on the ASCII letters, as [ConfigParser.optionxform] applies
    it to option names. *)
Definition lower_ascii (c : ascii) : ascii :=
  let n := nat_of_ascii c in
  if (65 <=? n)%nat && (n <=? 90)%nat then ascii_of_nat (n + 32) else c.

Fixpoint lower (s : string) : string :=
  match s with
  | EmptyString => EmptyString
  | String c s' => String (lower_ascii c) (lower s')
  end.

End PyStr.

(** ** [os.path] on POSIX path strings *)

Module OsPath.
Import PyStr.

(** [os.path.join(a, b)] *)
Definition join (a b : string) : string :=
  if startswith b "/" then b
  else if String.eqb a "" || endswith_sep a then a +:+ b
  else a +:+ "/" +:+ b.

(** [os.path.basename(p)] *)
Definition basename (p : string) : string := after_last_sep p.

(** [os.path.dirname(p)] *)
Definition dirname (p : string) : string :=
  let head := upto_last_sep p in
  match rstrip_sep head with
  | EmptyString => head
  | r => r
  end.

End OsPath.

(** ** Digests

    [hashlib] is taken symbolically: a digest object remembers its
    algorithm and the bytes fed to it so far, and [hexdigest] is the
    symbolic value "the digest, under that algorithm, of those bytes".
    This is hashlib's contract: feeding chunks one after the other is the
    same as feeding their concatenation. *)

Inductive algorithm := MD5 | SHA1 | SHA224 | SHA256.

Record hashobj := HashObj { h_alg : algorithm; h_fed : list byte }.

Inductive hexdigest := Hex (a : algorithm) (data : list byte).

Definition hashlib_new (a : algorithm) : hashobj := HashObj a [].

Definition update (h : hashobj) (chunk : list byte) : hashobj :=
  HashObj (h_alg h) (h_fed h ++ chunk).

Definition hexdigest_of (h : hashobj) : hexdigest := Hex (h_alg h) (h_fed h).

(** ** Python dictionaries with string keys

    A [dict] keeps its keys in insertion order, and [json.dump] writes
    them in that order, so the ledger is an association list. *)

Definition dict := list (string * hexdigest).

(** [d.update({k: v})]: overwrite in place if [k] is present, append
    otherwise. *)
Fixpoint dict_update (k : string) (v : hexdigest) (d : dict) : dict :=
  match d with
  | [] => [(k, v)]
  | (k', v') :: d' =>
      if String.eqb k k' then (k, v) :: d' else (k', v') :: dict_update k v d'
  end.

(** [d.get(k)] *)
Fixpoint dict_get (k : string) (d : dict) : option hexdigest :=
  match d with
  | [] => None
  | (k', v') :: d' => if String.eqb k k' then Some v' else dict_get k d'
  end.

Definition dict_keys (d : dict) : list string := map fst d.

(** ** The outside world *)

(** The text of fileHashes.json: empty right after
    [open("fileHashes.json", 'a').close()] created it, a JSON object after
    [json.dump]. *)
Inductive ledger_text :=
| LedgerEmpty
| LedgerJson (d : dict).

(** The file tree is keyed by path strings.  The three resources of the
    script are kept apart from the tree and hold what their parsers
    return: the options of the [settings] section under their
    [optionxform]ed names, the JSON array of prefixes, and the ledger. *)
Record FS := mkFS {
  files : gmap string (list byte);
  dirs : gset string;
  config_ini : option (gmap string string);
  filePaths_json : option (list string);
  fileHashes_json : option ledger_text
}.

Definition isfile (t : FS) (p : string) : bool :=
  bool_decide (is_Some (files t !! p)).

Definition isdir (t : FS) (p : string) : bool :=
  bool_decide (PyStr.rstrip_sep p ∈ dirs t).

Definition exists_ (t : FS) (p : string) : bool := isfile t p || isdir t p.

(** The names of the regular files directly inside [d], as
    [[f for f in listdir(d) if isfile(join(d, f))]] computes them: the
    keys [join d f] of the tree with [f] a single path component. *)
Definition entry_of (d p : string) : option string :=
  let f := OsPath.basename p in
  if negb (String.eqb f "") && String.eqb (OsPath.join d f) p then Some f else None.

Definition regular_entries (t : FS) (d : string) : list string :=
  omap (entry_of d) (map fst (map_to_list (files t))).

(** ** Module globals *)

Record Globals := mkGlobals {
  currentPath : string;
  path : list string;
  hashStore : dict;
  isRunning : bool;
  getHashes : bool;
  hashCode : string;
  parser : gmap string string;
  hash_ : hashobj
}.

(** ** Events: what the script asks of its environment *)

Inductive event :=
| EvReadConfig                       (* parser.read('config.ini') *)
| EvLoadPaths                        (* json.load(paths_file) *)
| EvMakedirs (d : string)            (* os.makedirs(d) *)
| EvListdir (d : string)             (* listdir(d) *)
| EvStartswith (file b : string)     (* file.startswith(b) *)
| EvMove (src dst : string)          (* shutil.move(src, dst) *)
| EvHash (fname : string)            (* hashFile(fname) *)
| EvRecord (file key : string)       (* hashStore.update, json.dump *)
| EvSleep (secs : nat).              (* time.sleep(secs) *)

Record World := mkWorld {
  fs : FS;
  gl : Globals;
  trace : list event
}.

(** ** Exceptions and the monad *)

Inductive exn :=
| ConfigParserError       (* NoSectionError, NoOptionError *)
| FileNotFoundError
| IsADirectoryError
| NotADirectoryError
| ShutilError.            (* shutil.Error: destination already exists *)

Inductive result (A : Type) :=
| Ok (a : A) (w : World)
| Raise (e : exn) (w : World).
Arguments Ok {A} a w.
Arguments Raise {A} e w.

Definition M (A : Type) : Type := World -> result A.

Definition ret {A} (a : A) : M A := fun w => Ok a w.

Definition bind {A B} (m : M A) (k : A -> M B) : M B :=
  fun w => match m w with
           | Ok a w' => k a w'
           | Raise e w' => Raise e w'
           end.

Definition raise {A} (e : exn) : M A := fun w => Raise e w.

Notation "'let*' x ':=' m 'in' k" := (bind m (fun x => k))
  (at level 10, x name, m at level 100, k at level 200).
Notation "m '>>' k" := (bind m (fun _ => k))
  (at level 90, right associativity).

Definition get_fs : M FS := fun w => Ok (fs w) w.
Definition get_gl : M Globals := fun w => Ok (gl w) w.
Definition put_fs (t : FS) : M unit := fun w => Ok tt (mkWorld t (gl w) (trace w)).
Definition put_gl (g : Globals) : M unit := fun w => Ok tt (mkWorld (fs w) g (trace w)).
Definition emit (e : event) : M unit :=
  fun w => Ok tt (mkWorld (fs w) (gl w) (trace w ++ [e])).

(** The world a computation ends in, whether it returned or raised. *)
Definition world_of {A} (r : result A) : World :=
  match r with Ok _ w => w | Raise _ w => w end.

(** Field updates. *)
Definition set_files (m : gmap string (list byte)) (t : FS) : FS :=
  mkFS m (dirs t) (config_ini t) (filePaths_json t) (fileHashes_json t).
Definition set_dirs (s : gset string) (t : FS) : FS :=
  mkFS (files t) s (config_ini t) (filePaths_json t) (fileHashes_json t).
Definition set_config_ini (c : option (gmap string string)) (t : FS) : FS :=
  mkFS (files t) (dirs t) c (filePaths_json t) (fileHashes_json t).
Definition set_filePaths_json (c : option (list string)) (t : FS) : FS :=
  mkFS (files t) (dirs t) (config_ini t) c (fileHashes_json t).
Definition set_fileHashes_json (c : option ledger_text) (t : FS) : FS :=
  mkFS (files t) (dirs t) (config_ini t) (filePaths_json t) c.

Definition set_path (p : list string) (g : Globals) : Globals :=
  mkGlobals (currentPath g) p (hashStore g) (isRunning g) (getHashes g)
            (hashCode g) (parser g) (hash_ g).
Definition set_hashStore (d : dict) (g : Globals) : Globals :=
  mkGlobals (currentPath g) (path g) d (isRunning g) (getHashes g)
            (hashCode g) (parser g) (hash_ g).
Definition set_isRunning (b : bool) (g : Globals) : Globals :=
  mkGlobals (currentPath g) (path g) (hashStore g) b (getHashes g)
            (hashCode g) (parser g) (hash_ g).
Definition set_parser (p : gmap string string) (g : Globals) : Globals :=
  mkGlobals (currentPath g) (path g) (hashStore g) (isRunning g) (getHashes g)
            (hashCode g) p (hash_ g).

(** ** ConfigParser *)

(** [parser.read('config.ini')]: options found in the file override those
    the parser already holds; a missing file is skipped silently. *)
Definition parser_read : M unit :=
  emit EvReadConfig >>
  let* t := get_fs in
  let* g := get_gl in
  match config_ini t with
  | Some opts => put_gl (set_parser (opts ∪ parser g) g)
  | None => ret tt
  end.

(** [parser.get('settings', option)] *)
Definition parser_get (option : string) : M string :=
  let* g := get_gl in
  match parser g !! PyStr.lower option with
  | Some v => ret v
  | None => raise ConfigParserError
  end.

(** ** [hashFile] *)

Definition chunk_size : nat := 4096.

(** [for chunk in iter(lambda: f.read(4096), b""): h.update(chunk)].
    [rest] is what the file object has not delivered yet.  Each round
    consumes bytes, so [S (length rest)] rounds of [fuel] always reach the
    empty read that ends the loop ([read_loop_enough]). *)
Fixpoint read_loop (fuel : nat) (h : hashobj) (rest : list byte) : hashobj :=
  match fuel with
  | O => h
  | S k =>
      match take chunk_size rest with
      | [] => h
      | chunk => read_loop k (update h chunk) (drop chunk_size rest)
      end
  end.

(** The [if]/[elif] chain at the head of [hashFile]. *)
Definition algorithm_of (code : string) : algorithm :=
  if String.eqb code "MD5" then MD5
  else if String.eqb code "SHA-1" then SHA1
  else if String.eqb code "SHA-256" then SHA256
  else if String.eqb code "SHA-224" then SHA224
  else MD5.

Definition hashFile (fname : string) : M hexdigest :=
  emit (EvHash fname) >>
  let* g := get_gl in
  let h := hashlib_new (algorithm_of (hashCode g)) in
  let* t := get_fs in
  match files t !! fname with
  | Some data => ret (hexdigest_of (read_loop (S (length data)) h data))
  | None => raise (if isdir t fname then IsADirectoryError else FileNotFoundError)
  end.

(** ** [shutil.move] of a regular file *)

Definition shutil_basename (p : string) : string :=
  OsPath.basename (PyStr.rstrip_sep p).

(** Where the file really lands: inside [dst] when [dst] is a directory. *)
Definition real_dst (t : FS) (src dst : string) : string :=
  if isdir t dst then OsPath.join dst (shutil_basename src) else dst.

Definition parent_is_dir (t : FS) (p : string) : bool :=
  String.eqb (OsPath.dirname p) "" || isdir t (OsPath.dirname p).

(** [os.rename] replaces a regular file already at the destination.  It
    needs the source to exist and the destination's directory to be one. *)
Definition shutil_move (src dst : string) : M unit :=
  emit (EvMove src dst) >>
  let* t := get_fs in
  let rd := real_dst t src dst in
  if isdir t dst && exists_ t rd then raise ShutilError
  else
    match files t !! src with
    | None => raise FileNotFoundError
    | Some data =>
        if parent_is_dir t rd
        then put_fs (set_files (<[rd := data]> (delete src (files t))) t)
        else raise (if isfile t (OsPath.dirname rd)
                    then NotADirectoryError else FileNotFoundError)
    end.

(** ** [main] *)

(** [file.replace(b + " ", "")] *)
Definition dest_name (file b : string) : string := PyStr.replace file (b +:+ " ").

(** [os.path.join(b, dest_name)] *)
Definition dest (file b : string) : string := OsPath.join b (dest_name file b).

(** [f"{b} | {dest_name}"] *)
Definition ledger_key (b name : string) : string := b +:+ " | " +:+ name.

(** [if not os.path.exists("fileHashes.json"): open(..., 'a').close()] *)
Definition ledger_bootstrap : M unit :=
  let* t := get_fs in
  match fileHashes_json t with
  | None => put_fs (set_fileHashes_json (Some LedgerEmpty) t)
  | Some _ => ret tt
  end.

(** [hashStore.update({key: digest})] followed by
    [json.dump(hashStore, outfile)] on the truncated ledger. *)
Definition record (b name : string) (digest : hexdigest) : M unit :=
  let* g := get_gl in
  put_gl (set_hashStore (dict_update (ledger_key b name) digest (hashStore g)) g) >>
  let* g' := get_gl in
  let* t := get_fs in
  put_fs (set_fileHashes_json (Some (LedgerJson (hashStore g'))) t).

(** The body of [if getHashes:]. *)
Definition on_getHashes (file b : string) : M unit :=
  ledger_bootstrap >>
  let* digest := hashFile (dest file b) in
  emit (EvRecord file (ledger_key b (dest_name file b))) >>
  record b (dest_name file b) digest.

(** The body of [if file.startswith(b):]. *)
Definition on_match (file b : string) : M unit :=
  let* g := get_gl in
  let src := OsPath.join (currentPath g) file in
  shutil_move src (dest file b) >>
  if getHashes g then on_getHashes file b else ret tt.

(** [for b in path: if file.startswith(b): ...] *)
Fixpoint for_b (file : string) (bs : list string) : M unit :=
  match bs with
  | [] => ret tt
  | b :: bs' =>
      emit (EvStartswith file b) >>
      (if PyStr.startswith file b then on_match file b else ret tt) >>
      for_b file bs'
  end.

(** [for file in onlyfiles: for b in path: ...] *)
Fixpoint for_file (onlyfiles : list string) : M unit :=
  match onlyfiles with
  | [] => ret tt
  | file :: rest =>
      (let* g := get_gl in for_b file (path g)) >>
      for_file rest
  end.

(** [listdir] raises when the watched directory is missing.  The two
    [print] calls only write to the console and are left out. *)
Definition main : M unit :=
  let* g := get_gl in
  let* t := get_fs in
  emit (EvListdir (currentPath g)) >>
  if isdir t (currentPath g)
  then for_file (regular_entries t (currentPath g))
  else raise (if isfile t (currentPath g)
              then NotADirectoryError else FileNotFoundError).

(** ** The script, top to bottom *)

(** Lines 33-40; [hash_] is bound on line 72 only, the value here is never
    read. *)
Definition initial_globals : Globals :=
  mkGlobals "Images" [] [] false false "MD5" ∅ (hashlib_new MD5).

Definition default_settings : gmap string string :=
  <[PyStr.lower "isRunning" := "true"]>
  (<[PyStr.lower "getHashes" := "true"]>
  (<[PyStr.lower "hashMethod" := "MD5"]>
  (<[PyStr.lower "currentPathName" := "Images"]> ∅))).

(** Lines 46-54. *)
Definition bootstrap_config : M unit :=
  let* t := get_fs in
  match config_ini t with
  | None =>
      let* g := get_gl in
      put_gl (set_parser default_settings g) >>
      put_fs (set_config_ini (Some default_settings) t)
  | Some _ => ret tt
  end.

(** Lines 57-60. *)
Definition bootstrap_paths : M unit :=
  let* t := get_fs in
  match filePaths_json t with
  | None => put_fs (set_filePaths_json (Some ["empty"]) t)
  | Some _ => ret tt
  end.

(** Lines 63-69. *)
Definition read_settings : M unit :=
  parser_read >>
  let* cp := parser_get "currentPathName" in
  let* hc := parser_get "hashMethod" in
  let* gh := parser_get "getHashes" in
  let* ir := parser_get "isRunning" in
  let* g := get_gl in
  put_gl (mkGlobals cp (path g) (hashStore g) (String.eqb ir "true")
                    (String.eqb gh "true") hc (parser g) (hash_ g)).

(** Lines 72-78. *)
Definition prepare_hash_ : M unit :=
  let* g := get_gl in
  let h :=
    if String.eqb (hashCode g) "SHA-1" then hashlib_new SHA1
    else if String.eqb (hashCode g) "SHA-256" then hashlib_new SHA256
    else if String.eqb (hashCode g) "SHA-224" then hashlib_new SHA224
    else hashlib_new MD5 in
  put_gl (mkGlobals (currentPath g) (path g) (hashStore g) (isRunning g)
                    (getHashes g) (hashCode g) (parser g) h).

(** [time.sleep(secs)]: the only points where the model lets other
    processes act on the file tree and the resources; [e] is what they do
    during this sleep. *)
Definition sleep (secs : nat) (e : FS -> FS) : M unit :=
  emit (EvSleep secs) >>
  let* t := get_fs in
  put_fs (e t).

(** Lines 141-144. *)
Definition load_paths : M unit :=
  emit EvLoadPaths >>
  let* t := get_fs in
  match filePaths_json t with
  | None => raise FileNotFoundError
  | Some pathData =>
      let* g := get_gl in
      put_gl (set_path (path g ++ pathData) g)
  end.

(** [if not os.path.exists(a): os.makedirs(a)].  Directories are recorded
    under their path without trailing separators; intermediate
    components are not tracked separately. *)
Definition ensure_dir (a : string) : M unit :=
  let* t := get_fs in
  if exists_ t a then ret tt
  else
    emit (EvMakedirs a) >>
    if String.eqb (PyStr.rstrip_sep a) "" then raise FileNotFoundError
    else put_fs (set_dirs ({[PyStr.rstrip_sep a]} ∪ dirs t) t).

(** Lines 147-149. *)
Fixpoint for_a (ps : list string) : M unit :=
  match ps with
  | [] => ret tt
  | a :: ps' => ensure_dir a >> for_a ps'
  end.

(** Lines 140-153: the head of [if isRunning:]. *)
Definition setup : M unit :=
  load_paths >>
  (let* g := get_gl in for_a (path g)) >>
  let* g := get_gl in
  ensure_dir (currentPath g).

(** Lines 157-162. *)
Definition reload_isRunning : M unit :=
  parser_read >>
  let* ir := parser_get "isRunning" in
  let* g := get_gl in
  put_gl (set_isRunning (String.eqb ir "true") g).

(** Lines 157-165: one pass through the body of the [while]. *)
Definition iteration (e : FS -> FS) : M unit :=
  reload_isRunning >> main >> sleep 3 e.

(** How a run ends: the loop left normally, an exception reached the top
    level, or the script of the environment ran out with the loop still
    going. *)
Inductive outcome :=
| Exited (w : World)
| Crashed (e : exn) (w : World)
| StillRunning (w : World).

Definition final_world (o : outcome) : World :=
  match o with Exited w | Crashed _ w | StillRunning w => w end.

(** [while isRunning: ...]; one element of [env] per pass, consumed by its
    [time.sleep(3)]. *)
Fixpoint while_isRunning (env : list (FS -> FS)) (w : World) : outcome :=
  if isRunning (gl w) then
    match env with
    | [] => StillRunning w
    | e :: env' =>
        match iteration e w with
        | Ok _ w' => while_isRunning env' w'
        | Raise ex w' => Crashed ex w'
        end
    end
  else Exited w.

(** Lines 33-137: everything before [if isRunning:]. *)
Definition startup (e0 : FS -> FS) : M unit :=
  bootstrap_config >> bootstrap_paths >> read_settings >> prepare_hash_ >>
  sleep 2 e0.

(** The whole script, started on the file tree [t]; [e0] is what other
    processes do during the initial [time.sleep(2)]. *)
Definition script (e0 : FS -> FS) (env : list (FS -> FS)) (t : FS) : outcome :=
  match startup e0 (mkWorld t initial_globals []) with
  | Raise ex w => Crashed ex w
  | Ok _ w =>
      if isRunning (gl w) then
        match setup w with
        | Raise ex w' => Crashed ex w'
        | Ok _ w' => while_isRunning env w'
        end
      else Exited w
  end.

(** ** Worlds for the worked examples *)

(** A world in the middle of a run: the watched directory [cp], the
    prefixes [bs] with their directories, the regular files [fl], the
    settings as bootstrapped. *)
Definition demo_fs (cp : string) (bs : list string)
    (fl : list (string * list byte)) : FS :=
  mkFS (list_to_map fl) (list_to_set (cp :: bs)) (Some default_settings)
       (Some bs) None.

Definition demo_world (cp : string) (bs : list string) (hashes : bool)
    (code : string) (fl : list (string * list byte)) : World :=
  mkWorld (demo_fs cp bs fl)
          (mkGlobals cp bs [] true hashes code default_settings (hashlib_new MD5))
          [].

Definition some_bytes : list byte := [x89; x50; x4e; x47]%byte.
Definition other_bytes : list byte := [xff; xd8]%byte.

(** ** Frames

    What a piece of the script leaves as it found it, as a relation
    between the world before and the world after (returned or raised). *)

(** The globals [main] only reads, and the parts of the outside world it
    never writes. *)
Definition main_reads (w : World) :=
  (currentPath (gl w), path (gl w), getHashes (gl w), hashCode (gl w),
   isRunning (gl w), parser (gl w), hash_ (gl w),
   dirs (fs w), config_ini (fs w), filePaths_json (fs w)).

Definition main_frame (w w' : World) : Prop :=
  main_reads w' = main_reads w /\ trace w `prefix_of` trace w'.

(** The settings a pass of the [while] loop works with, the running flag
    apart. *)
Definition settings (w : World) :=
  (currentPath (gl w), path (gl w), getHashes (gl w), hashCode (gl w)).

Definition loop_frame (w w' : World) : Prop :=
  settings w' = settings w /\ trace w `prefix_of` trace w'.

(** ** The claims that need amending, as they are written *)

(** C2 as written: when the settings resource says something else than
    "true" at the top of a pass, nothing is listed, moved, hashed or
    recorded from then on. *)
Definition is_work (ev : event) : bool :=
  match ev with
  | EvListdir _ | EvMove _ _ | EvHash _ | EvRecord _ _ => true
  | _ => false
  end.

Definition C2_as_written (env : list (FS -> FS)) (w : World) : Prop :=
  forall opts v,
    isRunning (gl w) = true ->
    config_ini (fs w) = Some opts ->
    opts !! "isrunning" = Some v -> v <> "true" ->
    forall new,
      trace (final_world (while_isRunning env w)) = trace w ++ new ->
      forallb (fun ev => negb (is_work ev)) new = true.

(** C3 as written: after the reload at the top of a pass, the four values
    the pass works with are those of the settings resource. *)
Definition C3_as_written (w : World) : Prop :=
  forall opts ir gh hm cp w1,
    config_ini (fs w) = Some opts ->
    opts !! "isrunning" = Some ir ->
    opts !! "gethashes" = Some gh ->
    opts !! "hashmethod" = Some hm ->
    opts !! "currentpathname" = Some cp ->
    reload_isRunning w = Ok tt w1 ->
    isRunning (gl w1) = String.eqb ir "true" /\
    getHashes (gl w1) = String.eqb gh "true" /\
    hashCode (gl w1) = hm /\
    currentPath (gl w1) = cp.

(** An event that moves, overwrites, hashes or records the file [f] of
    the watched directory [cp]. *)
Definition touches (cp f : string) (ev : event) : Prop :=
  match ev with
  | EvMove src dst => src = OsPath.join cp f \/ dst = OsPath.join cp f
  | EvHash fname => fname = OsPath.join cp f
  | EvRecord file _ => file = f
  | _ => False
  end.

(** The file [f] of the watched directory [cp] is where it was with the
    bytes [data], the loop still works on [cp] with the prefixes [bs],
    and nothing done since the trace read [tr0] touched the file. *)
Definition untouched (cp f : string) (bs : list string) (data : list byte)
    (tr0 : list event) (w : World) : Prop :=
  currentPath (gl w) = cp /\ path (gl w) = bs /\
  files (fs w) !! OsPath.join cp f = Some data /\
  exists new, trace w = tr0 ++ new /\
              Forall (fun ev => ~ touches cp f ev) new.

Definition keeps_untouched (cp f : string) (bs : list string)
    (data : list byte) (tr0 : list event) (w w' : World) : Prop :=
  untouched cp f bs data tr0 w -> untouched cp f bs data tr0 w'.

(** C9 as written: a listed file that no prefix matches keeps its bytes
    through a pass of [main] and is not hashed. *)
Definition C9_as_written (f : string) (w : World) : Prop :=
  forall data,
    f ∈ regular_entries (fs w) (currentPath (gl w)) ->
    (forall b, b ∈ path (gl w) -> PyStr.startswith f b = false) ->
    files (fs w) !! OsPath.join (currentPath (gl w)) f = Some data ->
    files (fs (world_of (main w))) !! OsPath.join (currentPath (gl w)) f
      = Some data /\
    EvHash (OsPath.join (currentPath (gl w)) f) ∉ trace (world_of (main w)).

(** Settings edited by hand. *)
Definition edited_settings (running hashes method dir : string)
    : gmap string string :=
  <["isrunning" := running]>
  (<["gethashes" := hashes]>
  (<["hashmethod" := method]>
  (<["currentpathname" := dir]> ∅))).

Definition with_settings (opts : gmap string string) (w : World) : World :=
  mkWorld (set_config_ini (Some opts) (fs w)) (gl w) (trace w).

(** ** Invariants of the ledger *)

Definition is_digest_event (ev : event) : bool :=
  match ev with
  | EvHash _ | EvRecord _ _ => true
  | _ => false
  end.

(** Hashing is off, the in-memory mapping is [store], the ledger file is
    [ledger], and no digest was computed or recorded since the trace read
    [tr0]. *)
Definition ledger_idle (store : dict) (ledger : option ledger_text)
    (tr0 : list event) (w : World) : Prop :=
  getHashes (gl w) = false /\ hashStore (gl w) = store /\
  fileHashes_json (fs w) = ledger /\
  exists new, trace w = tr0 ++ new /\
              Forall (fun ev => is_digest_event ev = false) new.

Definition keeps_ledger_idle (store : dict) (ledger : option ledger_text)
    (tr0 : list event) (w w' : World) : Prop :=
  ledger_idle store ledger tr0 w -> ledger_idle store ledger tr0 w'.

(** The ledger file holds the dump of the in-memory mapping. *)
Definition ledger_synced (w : World) : Prop :=
  fileHashes_json (fs w) = Some (LedgerJson (hashStore (gl w))).

(** From [w] to [w'] the keys of the mapping were only extended at the
    end, stayed unique if they were, and the file stayed in step with the
    mapping if it was. *)
Definition ledger_step (w w' : World) : Prop :=
  dict_keys (hashStore (gl w)) `prefix_of` dict_keys (hashStore (gl w')) /\
  (NoDup (dict_keys (hashStore (gl w))) -> NoDup (dict_keys (hashStore (gl w')))) /\
  (ledger_synced w -> ledger_synced w').

(** ** Invariants of the loop *)

(** config.ini is there and sets [isRunning] to "true". *)
Definition says_running (t : FS) : Prop :=
  exists opts, config_ini t = Some opts /\ opts !! "isrunning" = Some "true".

(** The events of [main] on files that no prefix matches: the listing,
    then one test per file and prefix, files outermost. *)
Definition tests_of (onlyfiles bs : list string) : list event :=
  flat_map (fun file => map (EvStartswith file) bs) onlyfiles.

(** A result that is not a configparser error. *)
Definition file_error_only {A} (r : result A) : Prop :=
  match r with
  | Ok _ _ => True
  | Raise e _ => e <> ConfigParserError
  end.

(** * Properties *)

(** ** Sanity checks of the primitives against Python *)

Example startswith_ex : PyStr.startswith "foo bar.png" "foo" = true.
Proof. reflexivity. Qed.

Example replace_ex : PyStr.replace "foo bar.png" "foo " = "bar.png".
Proof. reflexivity. Qed.

Example replace_inner_ex : PyStr.replace "xfoo bar" "foo " = "xbar".
Proof. reflexivity. Qed.

Example replace_overlap_ex : PyStr.replace "aaa" "aa" = "a".
Proof. reflexivity. Qed.

Example join_ex : OsPath.join "Images" "foo bar.png" = "Images/foo bar.png".
Proof. reflexivity. Qed.

Example join_empty_ex : OsPath.join "foo" "" = "foo/".
Proof. reflexivity. Qed.

Example join_absolute_ex : OsPath.join "foo" "/etc" = "/etc".
Proof. reflexivity. Qed.

Example dirname_ex : OsPath.dirname "foo/bar.png" = "foo".
Proof. reflexivity. Qed.

Example dirname_root_ex : OsPath.dirname "//a" = "//".
Proof. reflexivity. Qed.

Example basename_ex : OsPath.basename "Images/foo bar.png" = "foo bar.png".
Proof. reflexivity. Qed.

Example optionxform_ex : PyStr.lower "currentPathName" = "currentpathname".
Proof. reflexivity. Qed.

(** ** Strings *)

Section StringFacts.
Import PyStr.

Lemma startswith_nil (s : string) : startswith s "" = true.
Proof. by destruct s. Qed.

Lemma startswith_app (a s : string) : startswith (a +:+ s) a = true.
Proof.
  induction a as [|c a IH]; simpl.
  - apply startswith_nil.
  - by rewrite Ascii.eqb_refl.
Qed.

(** A prefix of a prefix. *)
Lemma startswith_app_l (u v p : string) :
  startswith u p = true -> startswith (u +:+ v) p = true.
Proof.
  revert u; induction p as [|c p IH]; intros u H.
  - apply startswith_nil.
  - destruct u as [|d u]; simpl in *; [done|].
    destruct (Ascii.eqb d c); [by apply IH | done].
Qed.

Lemma startswith_trans (s u p : string) :
  startswith s u = true -> startswith u p = true -> startswith s p = true.
Proof.
  revert s u; induction p as [|c p IH]; intros s u Hsu Hup.
  - apply startswith_nil.
  - destruct u as [|d u]; simpl in Hup; [done|].
    destruct s as [|e s]; simpl in Hsu; [done|].
    destruct (Ascii.eqb e d) eqn:Hed; [|done].
    apply Ascii.eqb_eq in Hed; subst e. simpl.
    destruct (Ascii.eqb d c); [by eapply IH | done].
Qed.

Lemma contains_cons (c : ascii) (s old : string) :
  contains (String c s) old = startswith (String c s) old || contains s old.
Proof. reflexivity. Qed.

Lemma contains_false_startswith (s old : string) :
  contains s old = false -> startswith s old = false.
Proof. destruct s; simpl; intros H; by apply orb_false_iff in H as [? _]. Qed.

(** Nothing to delete: the string comes back as it is. *)
Lemma replace_absent (s old : string) :
  contains s old = false -> replace s old = s.
Proof.
  unfold replace. induction s as [|c s IH]; intros H; [done|].
  rewrite contains_cons in H. apply orb_false_iff in H as [Hp Hc].
  cbn [replace_from]. destruct old as [|d old']; [by rewrite IH|].
  rewrite Hp. by rewrite IH.
Qed.

Lemma replace_from_skip (old u s : string) :
  replace_from old (String.length u) (u +:+ s) = replace_from old O s.
Proof. induction u as [|c u IH]; [done|]. simpl. apply IH. Qed.

(** A leading occurrence is deleted and the scan resumes behind it. *)
Lemma replace_leading (old s : string) :
  old <> "" -> replace (old +:+ s) old = replace s old.
Proof.
  intros Hne. unfold replace. destruct old as [|d old']; [done|].
  change (String d old' +:+ s) with (String d (old' +:+ s)).
  cbn [replace_from].
  change (String d (old' +:+ s)) with (String d old' +:+ s).
  rewrite startswith_app. apply replace_from_skip.
Qed.

(** Deleting never introduces a separator. *)
Lemma replace_from_no_sep (old : string) (k : nat) (s : string) :
  contains s "/" = false -> contains (replace_from old k s) "/" = false.
Proof.
  revert k. induction s as [|c s IH]; intros k H; [done|].
  rewrite contains_cons in H. apply orb_false_iff in H as [Hc Hs].
  cbn [replace_from]. destruct k as [|k]; [|by apply IH].
  assert (Hkeep : contains (String c (replace_from old 0 s)) "/" = false).
  { rewrite contains_cons. apply orb_false_iff. split; [|by apply IH].
    simpl in *. destruct (Ascii.eqb c "/"); [|done].
    by rewrite startswith_nil in Hc. }
  destruct old as [|d old']; [done|].
  destruct (startswith (String c s) (String d old')); [by apply IH | done].
Qed.

Lemma append_cons (c : ascii) (a s : string) :
  String c a +:+ s = String c (a +:+ s).
Proof. reflexivity. Qed.

Lemma append_nil_r (s : string) : s +:+ "" = s.
Proof. induction s as [|c s IH]; [done|]. by rewrite append_cons, IH. Qed.

Lemma append_assoc (a b c : string) : (a +:+ b) +:+ c = a +:+ (b +:+ c).
Proof. induction a as [|d a IH]; [done|]. by rewrite !append_cons, IH. Qed.

End StringFacts.

(** ** Digest objects *)

Lemma chunk_size_pos : 0 < chunk_size.
Proof. unfold chunk_size. lia. Qed.

Lemma read_loop_S (k : nat) (h : hashobj) (rest : list byte) :
  read_loop (S k) h rest =
  match take chunk_size rest with
  | [] => h
  | chunk => read_loop k (update h chunk) (drop chunk_size rest)
  end.
Proof. reflexivity. Qed.

(** The chunked loop ends within [S (length rest)] rounds and has then fed
    the digest object exactly the bytes of the file, in order. *)
Lemma read_loop_enough (fuel : nat) (h : hashobj) (rest : list byte) :
  length rest < fuel ->
  read_loop fuel h rest = HashObj (h_alg h) (h_fed h ++ rest).
Proof.
  revert h rest. induction fuel as [|k IH]; intros h rest Hlen; [lia|].
  rewrite read_loop_S. pose proof chunk_size_pos as Hpos.
  destruct (take chunk_size rest) as [|b chunk] eqn:Htake.
  - assert (rest = []) as ->.
    { destruct rest as [|x rest]; [done|].
      destruct chunk_size; [lia | discriminate]. }
    rewrite app_nil_r. by destruct h.
  - rewrite IH.
    + unfold update; cbn [h_alg h_fed]. rewrite <- Htake.
      by rewrite <- app_assoc, take_drop.
    + rewrite length_drop.
      assert (rest <> []) by (intros ->; by rewrite take_nil in Htake).
      destruct rest; [done|]. simpl in *. lia.
Qed.

(** ** Dictionaries *)

Lemma dict_get_update_eq (k : string) (v : hexdigest) (d : dict) :
  dict_get k (dict_update k v d) = Some v.
Proof.
  induction d as [|[k' v'] d IH]; simpl.
  - by rewrite String.eqb_refl.
  - destruct (String.eqb k k') eqn:E; simpl.
    + by rewrite String.eqb_refl.
    + by rewrite E.
Qed.

Lemma dict_get_update_ne (k k0 : string) (v : hexdigest) (d : dict) :
  k0 <> k -> dict_get k0 (dict_update k v d) = dict_get k0 d.
Proof.
  intros Hne. induction d as [|[k' v'] d IH]; simpl.
  - by apply String.eqb_neq in Hne as ->.
  - destruct (String.eqb k k') eqn:E; simpl.
    + apply String.eqb_eq in E; subst k'.
      by apply String.eqb_neq in Hne as ->.
    + by rewrite IH.
Qed.

Lemma dict_keys_update (k : string) (v : hexdigest) (d : dict) :
  dict_keys (dict_update k v d) =
  if bool_decide (k ∈ dict_keys d) then dict_keys d else dict_keys d ++ [k].
Proof.
  unfold dict_keys. induction d as [|[k' v'] d IH]; [done|].
  cbn [dict_update map fst].
  destruct (String.eqb k k') eqn:E.
  - apply String.eqb_eq in E; subst k'. cbn [map fst].
    rewrite bool_decide_eq_true_2; [done | by left].
  - apply String.eqb_neq in E. cbn [map fst]. rewrite IH.
    destruct (bool_decide (k ∈ map fst d)) eqn:B.
    + apply bool_decide_eq_true in B.
      rewrite bool_decide_eq_true_2; [done | by right].
    + apply bool_decide_eq_false in B.
      rewrite bool_decide_eq_false_2; [done|].
      intros [?|?]%elem_of_cons; done.
Qed.

Lemma dict_update_NoDup (k : string) (v : hexdigest) (d : dict) :
  NoDup (dict_keys d) -> NoDup (dict_keys (dict_update k v d)).
Proof.
  intros Hnd. rewrite dict_keys_update. case_bool_decide as Hin; [done|].
  apply NoDup_app. split_and!; [done | | apply NoDup_singleton].
  intros x Hx ->%list_elem_of_singleton. done.
Qed.

(** ** Running monadic code *)

Ltac unfold_prims :=
  unfold bind, ret, raise, get_fs, get_gl, put_fs, put_gl, emit in *.

Lemma bind_Ok {A B} (m : M A) (k : A -> M B) (w w1 : World) (a : A) :
  m w = Ok a w1 -> bind m k w = k a w1.
Proof. unfold bind. by intros ->. Qed.

(** ** The ledger (C5) *)



(** ** The digest engine (C6, C7) *)

Lemma hashFile_readable (w : World) (fname : string) (data : list byte) :
  files (fs w) !! fname = Some data ->
  hashFile fname w =
  Ok (Hex (algorithm_of (hashCode (gl w))) data)
     (mkWorld (fs w) (gl w) (trace w ++ [EvHash fname])).
Proof.
  intros Hf. unfold hashFile. unfold_prims. cbn [fs gl trace]. rewrite Hf.
  rewrite read_loop_enough by lia. reflexivity.
Qed.

Lemma algorithm_of_unknown (code : string) :
  code ∉ ["MD5"; "SHA-1"; "SHA-224"; "SHA-256"] -> algorithm_of code = MD5.
Proof.
  intros Hn. unfold algorithm_of.
  destruct (String.eqb code "MD5"); [reflexivity|].
  destruct (String.eqb code "SHA-1") eqn:E1.
  { apply String.eqb_eq in E1. subst code. exfalso. apply Hn.
    apply elem_of_cons. right. apply elem_of_cons. by left. }
  destruct (String.eqb code "SHA-256") eqn:E2.
  { apply String.eqb_eq in E2. subst code. exfalso. apply Hn.
    do 3 (apply elem_of_cons; right). apply elem_of_cons. by left. }
  destruct (String.eqb code "SHA-224") eqn:E3; [|reflexivity].
  apply String.eqb_eq in E3. subst code. exfalso. apply Hn.
  do 2 (apply elem_of_cons; right). apply elem_of_cons. by left.
Qed.

(** C6.  With a [hashMethod] outside MD5, SHA-1, SHA-224, SHA-256,
    [hashFile] does not raise on a readable file: it returns the MD5 digest
    of the file's bytes. *)
Theorem C6_unknown_algorithm_falls_back_to_md5
    (w : World) (fname : string) (data : list byte) :
  hashCode (gl w) ∉ ["MD5"; "SHA-1"; "SHA-224"; "SHA-256"] ->
  files (fs w) !! fname = Some data ->
  exists w', hashFile fname w = Ok (Hex MD5 data) w'.
Proof.
  intros Hcode Hf. eexists. rewrite (hashFile_readable _ _ _ Hf).
  by rewrite algorithm_of_unknown.
Qed.

Lemma C6_unknown_algorithm_falls_back_to_md5_witness :
  exists w',
    hashFile "foo/bar.png"
      (demo_world "Images" ["foo"] true "SHA-512" [("foo/bar.png", some_bytes)])
    = Ok (Hex MD5 some_bytes) w'.
Proof.
  apply (C6_unknown_algorithm_falls_back_to_md5
           (demo_world "Images" ["foo"] true "SHA-512"
              [("foo/bar.png", some_bytes)])
           "foo/bar.png" some_bytes).
  - cbn. intros H. repeat (apply elem_of_cons in H as [H|H]; [discriminate|]).
    by apply elem_of_nil in H.
  - vm_compute. reflexivity.
Defined.

(** C7.  The digest [hashFile] returns is a function of the configured
    algorithm and of the bytes read: two calls on the same bytes under the
    same [hashMethod] agree, whatever else the two worlds hold (other
    files, the ledger, the module-level [hash_], what was hashed before),
    and calling it again right after the first call gives the same digest
    once more. *)
Theorem C7_hashFile_deterministic
    (w1 w2 : World) (f1 f2 : string) (data : list byte) :
  hashCode (gl w1) = hashCode (gl w2) ->
  files (fs w1) !! f1 = Some data ->
  files (fs w2) !! f2 = Some data ->
  exists d w1' w2' w1'',
    hashFile f1 w1 = Ok d w1' /\
    hashFile f2 w2 = Ok d w2' /\
    hashFile f1 w1' = Ok d w1'' /\
    d = Hex (algorithm_of (hashCode (gl w1))) data.
Proof.
  intros Hcode H1 H2.
  rewrite (hashFile_readable _ _ _ H1), (hashFile_readable _ _ _ H2).
  do 4 eexists. split_and!; try reflexivity.
  - by rewrite Hcode.
  - by rewrite (hashFile_readable _ f1 data).
Qed.

Lemma C7_hashFile_deterministic_witness :
  exists d w1' w2',
    hashFile "foo/a.png"
      (demo_world "Images" ["foo"] true "SHA-256" [("foo/a.png", some_bytes)])
    = Ok d w1' /\
    hashFile "bar/b.png"
      (mkWorld (demo_fs "In" ["bar"]
                  [("bar/b.png", some_bytes); ("bar/c", other_bytes)])
         (mkGlobals "In" ["bar"] [("bar | c", Hex SHA256 other_bytes)]
            true true "SHA-256" default_settings (hashlib_new SHA1))
         [EvHash "bar/c"])
    = Ok d w2' /\
    d = Hex SHA256 some_bytes.
Proof.
  destruct (C7_hashFile_deterministic
              (demo_world "Images" ["foo"] true "SHA-256"
                 [("foo/a.png", some_bytes)])
              (mkWorld (demo_fs "In" ["bar"]
                          [("bar/b.png", some_bytes); ("bar/c", other_bytes)])
                 (mkGlobals "In" ["bar"] [("bar | c", Hex SHA256 other_bytes)]
                    true true "SHA-256" default_settings (hashlib_new SHA1))
                 [EvHash "bar/c"])
              "foo/a.png" "bar/b.png" some_bytes)
    as (d & w1' & w2' & _ & Ha & Hb & _ & Hd).
  - reflexivity.
  - vm_compute. reflexivity.
  - vm_compute. reflexivity.
  - exists d, w1', w2'. split; [exact Ha|]. split; [exact Hb|]. exact Hd.
Defined.

(** ** One matched file (C1, C4) *)

Lemma shutil_move_file (w : World) (src dst : string) (data : list byte) :
  files (fs w) !! src = Some data ->
  isdir (fs w) dst = false ->
  parent_is_dir (fs w) dst = true ->
  shutil_move src dst w =
  Ok tt (mkWorld (set_files (<[dst := data]> (delete src (files (fs w)))) (fs w))
                 (gl w) (trace w ++ [EvMove src dst])).
Proof.
  intros Hsrc Hdir Hpar. unfold shutil_move, real_dst. unfold_prims.
  cbn [fs gl trace]. by rewrite Hdir, Hsrc, Hpar.
Qed.

Lemma ledger_bootstrap_world (w : World) :
  exists t',
    ledger_bootstrap w = Ok tt (mkWorld t' (gl w) (trace w)) /\
    files t' = files (fs w) /\ dirs t' = dirs (fs w) /\
    config_ini t' = config_ini (fs w) /\
    filePaths_json t' = filePaths_json (fs w).
Proof.
  destruct w as [[fl ds ci fp fh] g tr]. unfold ledger_bootstrap. unfold_prims.
  cbn. destruct fh; eexists; (split; [reflexivity|]); done.
Qed.

(** What a successful [on_match] does to the file tree. *)
Lemma on_match_moves (w : World) (file b : string) (data : list byte) :
  files (fs w) !! OsPath.join (currentPath (gl w)) file = Some data ->
  isdir (fs w) (dest file b) = false ->
  parent_is_dir (fs w) (dest file b) = true ->
  exists w1,
    on_match file b w = Ok tt w1 /\
    files (fs w1) =
      <[dest file b := data]>
        (delete (OsPath.join (currentPath (gl w)) file) (files (fs w))) /\
    EvMove (OsPath.join (currentPath (gl w)) file) (dest file b) ∈ trace w1.
Proof.
  intros Hsrc Hdir Hpar. unfold on_match.
  rewrite (bind_Ok get_gl _ w w (gl w)) by reflexivity.
  rewrite (bind_Ok _ _ _ _ _ (shutil_move_file _ _ _ _ Hsrc Hdir Hpar)).
  set (w0 := mkWorld _ _ _).
  assert (Hev : EvMove (OsPath.join (currentPath (gl w)) file) (dest file b)
                  ∈ trace w0).
  { subst w0. cbn. apply elem_of_app. right. by left. }
  destruct (getHashes (gl w)).
  - unfold on_getHashes.
    destruct (ledger_bootstrap_world w0) as (t' & Hboot & Hfiles & _).
    rewrite (bind_Ok _ _ _ _ _ Hboot).
    assert (Hd : files (fs (mkWorld t' (gl w0) (trace w0))) !! dest file b
                 = Some data).
    { cbn [fs]. rewrite Hfiles. subst w0. cbn. apply lookup_insert_eq. }
    rewrite (bind_Ok _ _ _ _ _ (hashFile_readable _ _ _ Hd)).
    eexists. split; [reflexivity|]. cbn. split; [by rewrite Hfiles|].
    apply elem_of_app. left. apply elem_of_app. left. exact Hev.
  - exists w0. done.
Qed.

(** When the suffix is free of "<prefix> ", stripping gives the suffix. *)
Lemma dest_name_strips_prefix (P suffix : string) :
  PyStr.contains suffix (P +:+ " ") = false ->
  dest_name (P +:+ " " +:+ suffix) P = suffix.
Proof.
  intros Hfree. unfold dest_name.
  rewrite <- append_assoc. rewrite replace_leading.
  - by apply replace_absent.
  - destruct P; discriminate.
Qed.

(** C1, at a file that two prefixes match.  There is no [break] after the
    move: the next prefix is still tested, matches, and the second
    [shutil.move] of the file that is no longer there raises.  With a
    single matching prefix the later prefixes are tested all the same. *)
Theorem C1_no_break_after_match :
  (exists w',
     main (demo_world "Images" ["a"; "ab"] false "MD5"
             [("Images/ab x", some_bytes)]) = Raise FileNotFoundError w' /\
     trace w' = [EvListdir "Images";
                 EvStartswith "ab x" "a"; EvMove "Images/ab x" "a/ab x";
                 EvStartswith "ab x" "ab"; EvMove "Images/ab x" "ab/x"] /\
     files (fs w') !! "a/ab x" = Some some_bytes) /\
  (exists w',
     main (demo_world "Images" ["foo"; "bar"] false "MD5"
             [("Images/foo x", some_bytes)]) = Ok tt w' /\
     trace w' = [EvListdir "Images";
                 EvStartswith "foo x" "foo"; EvMove "Images/foo x" "foo/x";
                 EvStartswith "foo x" "bar"]).
Proof.
  split; eexists; (split; [vm_compute; reflexivity|]); vm_compute; done.
Qed.

(** C4, at a suffix that contains "<prefix> " again.  [str.replace] deletes
    every occurrence, so "a a b" under the prefix "a" lands at "a/b", not
    at "a/a b". *)
Theorem C4_replace_deletes_later_occurrences :
  dest_name "a a b" "a" = "b" /\
  dest "a a b" "a" = "a/b" /\
  exists w',
    main (demo_world "Images" ["a"] false "MD5"
            [("Images/a a b", some_bytes)]) = Ok tt w' /\
    files (fs w') !! "a/b" = Some some_bytes /\
    files (fs w') !! "a/a b" = None.
Proof.
  split; [reflexivity|]. split; [reflexivity|].
  eexists. split; [vm_compute; reflexivity|]. vm_compute. done.
Qed.

(** ** Frames of the pieces of [main] (C8) *)

#[local] Instance main_frame_preorder : PreOrder main_frame.
Proof.
  split.
  - intros w. by split.
  - intros w1 w2 w3 [H1 P1] [H2 P2]. split; [congruence | by etrans].
Qed.

#[local] Instance loop_frame_preorder : PreOrder loop_frame.
Proof.
  split.
  - intros w. by split.
  - intros w1 w2 w3 [H1 P1] [H2 P2]. split; [congruence | by etrans].
Qed.

Lemma main_frame_loop_frame (w w' : World) : main_frame w w' -> loop_frame w w'.
Proof.
  intros [H P]. split; [|done]. unfold main_reads in H. unfold settings.
  injection H as -> -> -> -> _ _ _ _ _ _. reflexivity.
Qed.

(** Sequencing: a relation that is reflexive and transitive and holds
    across [m] and across what follows holds across [bind m k]. *)
Lemma bind_rel {A B} (R : relation World) `{!PreOrder R}
    (m : M A) (k : A -> M B) (w : World) :
  R w (world_of (m w)) ->
  (forall a w1, m w = Ok a w1 -> R w1 (world_of (k a w1))) ->
  R w (world_of (bind m k w)).
Proof.
  intros Hm Hk. unfold bind. destruct (m w) as [a w1|e w1] eqn:E; [|done].
  etrans; [exact Hm | by apply Hk].
Qed.

Ltac frame_now :=
  split; [reflexivity | cbn [trace]; try reflexivity;
                        repeat apply prefix_app_r; reflexivity].

Lemma emit_frame (ev : event) (w : World) : main_frame w (world_of (emit ev w)).
Proof. frame_now. Qed.

Lemma shutil_move_frame (src dst : string) (w : World) :
  main_frame w (world_of (shutil_move src dst w)).
Proof.
  unfold shutil_move. unfold_prims. cbn [fs gl trace].
  repeat case_match; frame_now.
Qed.

Lemma hashFile_frame (fname : string) (w : World) :
  main_frame w (world_of (hashFile fname w)).
Proof.
  unfold hashFile. unfold_prims. cbn [fs gl trace].
  repeat case_match; frame_now.
Qed.

Lemma ledger_bootstrap_frame (w : World) :
  main_frame w (world_of (ledger_bootstrap w)).
Proof.
  unfold ledger_bootstrap. unfold_prims. repeat case_match; frame_now.
Qed.

Lemma record_frame (b name : string) (d : hexdigest) (w : World) :
  main_frame w (world_of (record b name d w)).
Proof. unfold record. unfold_prims. frame_now. Qed.

Lemma on_getHashes_frame (file b : string) (w : World) :
  main_frame w (world_of (on_getHashes file b w)).
Proof.
  unfold on_getHashes.
  apply bind_rel; [apply _ | apply ledger_bootstrap_frame |]. intros _ w2 _.
  apply bind_rel; [apply _ | apply hashFile_frame |]. intros d w3 _.
  apply bind_rel; [apply _ | apply emit_frame |]. intros _ w4 _.
  apply record_frame.
Qed.

Lemma on_match_frame (file b : string) (w : World) :
  main_frame w (world_of (on_match file b w)).
Proof.
  unfold on_match. apply bind_rel; [apply _ | reflexivity |].
  intros g w1 [= <- <-]. apply bind_rel; [apply _ | apply shutil_move_frame |].
  intros _ w1 _.
  destruct (getHashes (gl w)); [apply on_getHashes_frame | reflexivity].
Qed.

(** [shutil.move] is called whether or not it can be carried out. *)
Lemma shutil_move_trace (src dst : string) (w : World) :
  trace (world_of (shutil_move src dst w)) = trace w ++ [EvMove src dst].
Proof.
  unfold shutil_move. unfold_prims. cbn [fs gl trace].
  repeat case_match; reflexivity.
Qed.

Lemma on_match_calls_move (file b : string) (w : World) :
  trace w ++ [EvMove (OsPath.join (currentPath (gl w)) file) (dest file b)]
    `prefix_of` trace (world_of (on_match file b w)).
Proof.
  unfold on_match. unfold bind at 1. unfold get_gl. unfold bind at 1.
  pose proof (shutil_move_trace (OsPath.join (currentPath (gl w)) file)
                (dest file b) w) as Htr.
  destruct (shutil_move _ _ w) as [[] w1|ex w1]; cbn [world_of] in *;
    rewrite <- Htr; [|reflexivity].
  destruct (getHashes (gl w)); [apply on_getHashes_frame | reflexivity].
Qed.

Lemma for_b_frame (file : string) (bs : list string) (w : World) :
  main_frame w (world_of (for_b file bs w)).
Proof.
  revert w. induction bs as [|b bs IH]; intros w; [reflexivity|].
  cbn [for_b]. apply bind_rel; [apply _ | apply emit_frame |]. intros _ w1 _.
  apply bind_rel; [apply _ | | intros; apply IH].
  destruct (PyStr.startswith file b); [apply on_match_frame | reflexivity].
Qed.

Lemma for_file_frame (onlyfiles : list string) (w : World) :
  main_frame w (world_of (for_file onlyfiles w)).
Proof.
  revert w. induction onlyfiles as [|file rest IH]; intros w; [reflexivity|].
  cbn [for_file]. apply bind_rel; [apply _ | | intros; apply IH].
  apply bind_rel; [apply _ | reflexivity |]. intros g w1 _. apply for_b_frame.
Qed.

Lemma main_main_frame (w : World) : main_frame w (world_of (main w)).
Proof.
  unfold main. apply bind_rel; [apply _ | reflexivity |]. intros g w1 _.
  apply bind_rel; [apply _ | reflexivity |]. intros t w2 _.
  apply bind_rel; [apply _ | apply emit_frame |]. intros _ w3 _.
  destruct (isdir t (currentPath g)); [apply for_file_frame | reflexivity].
Qed.



(** ** Frames of the pieces of the loop *)

Lemma sleep_world (secs : nat) (e : FS -> FS) (w : World) :
  sleep secs e w = Ok tt (mkWorld (e (fs w)) (gl w) (trace w ++ [EvSleep secs])).
Proof. reflexivity. Qed.

Lemma parser_read_world (w : World) :
  exists p,
    parser_read w =
    Ok tt (mkWorld (fs w) (set_parser p (gl w)) (trace w ++ [EvReadConfig])) /\
    forall opts, config_ini (fs w) = Some opts -> p = opts ∪ parser (gl w).
Proof.
  unfold parser_read. unfold_prims. cbn [fs gl trace].
  destruct (config_ini (fs w)) as [opts|].
  - exists (opts ∪ parser (gl w)). split; [reflexivity|]. by intros ? [= <-].
  - exists (parser (gl w)). split; [by destruct w as [t [] tr]|]. done.
Qed.

(** The reload at the top of a pass, when the resource has the option. *)
Lemma reload_isRunning_world (w : World) (opts : gmap string string) (ir : string) :
  config_ini (fs w) = Some opts ->
  opts !! "isrunning" = Some ir ->
  reload_isRunning w =
  Ok tt (mkWorld (fs w)
           (set_isRunning (String.eqb ir "true")
              (set_parser (opts ∪ parser (gl w)) (gl w)))
           (trace w ++ [EvReadConfig])).
Proof.
  intros Hcfg Hir. unfold reload_isRunning.
  destruct (parser_read_world w) as (p & Hread & Hp).
  rewrite (bind_Ok _ _ _ _ _ Hread). rewrite (Hp _ Hcfg).
  unfold parser_get. unfold_prims. cbn [fs gl trace set_parser parser].
  change (PyStr.lower "isRunning") with "isrunning".
  by rewrite (lookup_union_Some_l _ _ _ _ Hir).
Qed.

Lemma reload_isRunning_frame (w : World) :
  loop_frame w (world_of (reload_isRunning w)).
Proof.
  unfold reload_isRunning.
  destruct (parser_read_world w) as (p & Hread & _).
  unfold bind at 1. rewrite Hread.
  unfold parser_get. unfold_prims. cbn [fs gl trace set_parser parser].
  destruct (p !! PyStr.lower "isRunning");
    (split; [reflexivity | cbn [trace world_of]; by apply prefix_app_r]).
Qed.

Lemma iteration_frame (e : FS -> FS) (w : World) :
  loop_frame w (world_of (iteration e w)).
Proof.
  unfold iteration.
  apply bind_rel; [apply _ | apply reload_isRunning_frame |]. intros _ w1 _.
  apply bind_rel; [apply _ | apply main_frame_loop_frame, main_main_frame |].
  intros _ w2 _. rewrite sleep_world. split; [reflexivity|].
  cbn [trace world_of]. by apply prefix_app_r.
Qed.

Lemma while_isRunning_frame (env : list (FS -> FS)) (w : World) :
  loop_frame w (final_world (while_isRunning env w)).
Proof.
  revert w. induction env as [|e env IH]; intros w; cbn [while_isRunning].
  - destruct (isRunning (gl w)); reflexivity.
  - destruct (isRunning (gl w)); [|reflexivity].
    pose proof (iteration_frame e w) as Hit.
    destruct (iteration e w) as [[] w1|ex w1]; cbn [world_of] in Hit.
    + etrans; [exact Hit | apply IH].
    + exact Hit.
Qed.

(** [main] always starts by listing the watched directory. *)
Lemma main_lists (w : World) :
  trace w ++ [EvListdir (currentPath (gl w))] `prefix_of` trace (world_of (main w)).
Proof.
  unfold main. unfold bind at 1 2 3. unfold get_gl, get_fs, emit.
  cbn [fs gl trace].
  set (w1 := mkWorld _ _ _).
  change (trace w ++ [EvListdir (currentPath (gl w))]) with (trace w1).
  destruct (isdir (fs w) (currentPath (gl w))); [|reflexivity].
  apply for_file_frame.
Qed.

(** ** Stopping (C2) *)




(** ** Reloading (C3) *)




Lemma bind_assoc {A B C} (m : M A) (k : A -> M B) (k' : B -> M C) (w : World) :
  bind (bind m k) k' w = bind m (fun a => bind (k a) k') w.
Proof. unfold bind. by destruct (m w). Qed.

(** ** Starting stopped (C10) *)



(** ** Files that no prefix matches (C9) *)

Section PathFacts.
Import PyStr.

Lemma contains_sep_cons (c : ascii) (s : string) :
  contains (String c s) "/" = Ascii.eqb c "/" || contains s "/".
Proof.
  rewrite contains_cons. f_equal. cbn. rewrite startswith_nil.
  by destruct (Ascii.eqb c "/").
Qed.

(** A base name holds no separator. *)
Lemma after_last_sep_no_sep (s : string) :
  contains (after_last_sep s) "/" = false.
Proof.
  induction s as [|c s IH]; [done|]. cbn [after_last_sep].
  destruct (contains s "/") eqn:Hs; [done|].
  destruct (Ascii.eqb c "/") eqn:Hc; [done|].
  by rewrite contains_sep_cons, Hc, Hs.
Qed.

Lemma startswith_app_same (a u v : string) :
  startswith (a +:+ u) (a +:+ v) = startswith u v.
Proof.
  induction a as [|c a IH]; [done|].
  rewrite !append_cons. cbn [startswith]. by rewrite Ascii.eqb_refl.
Qed.

(** A relative name joined to [b] lies inside [b]. *)
Lemma join_inside (b x : string) :
  startswith x "/" = false ->
  startswith (OsPath.join b x) (OsPath.join b "") = true.
Proof.
  intros Hx. unfold OsPath.join. rewrite Hx.
  change (startswith "" "/") with false. cbn iota.
  destruct (String.eqb b "" || endswith_sep b).
  - rewrite startswith_app_same. apply startswith_nil.
  - rewrite startswith_app_same. apply (startswith_app "/" x).
Qed.

Lemma join_extends (d y : string) :
  startswith y "/" = false -> startswith (OsPath.join d y) d = true.
Proof.
  intros Hy. unfold OsPath.join. rewrite Hy.
  destruct (String.eqb d "" || endswith_sep d); apply startswith_app.
Qed.

End PathFacts.

Lemma entry_of_Some (d p g : string) :
  entry_of d p = Some g ->
  g = OsPath.basename p /\ OsPath.join d g = p /\ PyStr.contains g "/" = false.
Proof.
  unfold entry_of. destruct (negb _ && _) eqn:E; [|done]. intros [= <-].
  apply andb_true_iff in E as [_ E]. apply String.eqb_eq in E.
  split; [done|]. split; [done|]. apply after_last_sep_no_sep.
Qed.

(** Every listed name is the entry of its own path. *)
Lemma regular_entries_entry (t : FS) (d g : string) :
  g ∈ regular_entries t d -> entry_of d (OsPath.join d g) = Some g.
Proof.
  unfold regular_entries. intros (p & _ & Hp)%list_elem_of_omap.
  by destruct (entry_of_Some _ _ _ Hp) as (_ & -> & _).
Qed.

Section Untouched.
Variables (cp f : string) (bs : list string) (data : list byte).
Variable tr0 : list event.

Hypothesis Hentry : entry_of cp (OsPath.join cp f) = Some f.
Hypothesis Hnomatch : forall b, b ∈ bs -> PyStr.startswith f b = false.
Hypothesis Houtside :
  forall b, b ∈ bs ->
    PyStr.startswith (OsPath.join cp f) (OsPath.join b "") = false.

Local Abbreviation Inv := (untouched cp f bs data tr0).
Local Abbreviation R9 := (keeps_untouched cp f bs data tr0).

#[local] Instance R9_preorder : PreOrder R9.
Proof. split; unfold keeps_untouched; [intros w; tauto | intros w1 w2 w3; tauto]. Qed.

Lemma Inv_emit (ev : event) (w : World) :
  ~ touches cp f ev -> R9 w (world_of (emit ev w)).
Proof.
  intros Hev (Hcp & Hpath & Hfile & new & Htr & Hnew).
  unfold untouched, emit. cbn [fs gl trace world_of].
  split_and!; try done. exists (new ++ [ev]). split.
  - by rewrite Htr, app_assoc.
  - apply Forall_app. split; [done|]. by apply Forall_singleton.
Qed.

Lemma Inv_fs (t : FS) (w : World) :
  files t !! OsPath.join cp f = files (fs w) !! OsPath.join cp f ->
  R9 w (mkWorld t (gl w) (trace w)).
Proof.
  intros Hsame (Hcp & Hpath & Hfile & Hnew). unfold untouched.
  cbn [fs gl trace]. by rewrite Hsame.
Qed.

Lemma Inv_gl (g : Globals) (w : World) :
  currentPath g = currentPath (gl w) -> path g = path (gl w) ->
  R9 w (mkWorld (fs w) g (trace w)).
Proof.
  intros H1 H2 (Hcp & Hpath & Hfile & Hnew). unfold untouched.
  cbn [fs gl trace]. by rewrite H1, H2.
Qed.

Lemma R9_shutil_move (src dst : string) (w : World) :
  src <> OsPath.join cp f -> dst <> OsPath.join cp f ->
  (forall t, real_dst t src dst <> OsPath.join cp f) ->
  R9 w (world_of (shutil_move src dst w)).
Proof.
  intros Hsrc Hdst Hrd. unfold shutil_move.
  apply bind_rel; [apply _ | apply Inv_emit; by intros [?|?] |].
  intros _ w1 _. unfold_prims. cbn [fs gl trace].
  destruct (isdir (fs w1) dst && exists_ (fs w1) (real_dst (fs w1) src dst));
    [reflexivity|].
  destruct (files (fs w1) !! src) as [d|]; [|reflexivity].
  destruct (parent_is_dir (fs w1) (real_dst (fs w1) src dst)); [|reflexivity].
  apply Inv_fs. cbn [files set_files].
  rewrite lookup_insert_ne by apply Hrd. by rewrite lookup_delete_ne.
Qed.

Lemma R9_hashFile (fname : string) (w : World) :
  fname <> OsPath.join cp f -> R9 w (world_of (hashFile fname w)).
Proof.
  intros Hne. unfold hashFile.
  apply bind_rel; [apply _ | apply Inv_emit; exact Hne |]. intros _ w1 _.
  unfold_prims. cbn [fs gl trace]. case_match; reflexivity.
Qed.

Lemma R9_ledger_bootstrap (w : World) : R9 w (world_of (ledger_bootstrap w)).
Proof.
  destruct (ledger_bootstrap_world w) as (t' & -> & Hfiles & _).
  apply Inv_fs. by rewrite Hfiles.
Qed.

Lemma R9_record (b name : string) (d : hexdigest) (w : World) :
  R9 w (world_of (record b name d w)).
Proof.
  unfold record. unfold_prims. cbn [fs gl trace world_of].
  intros (Hcp & Hpath & Hfile & Hnew). done.
Qed.

(** The destination of a listed file lies inside the directory of the
    prefix, and so does the place inside it when it is a directory. *)
Lemma dest_inside (g b : string) :
  PyStr.contains g "/" = false ->
  PyStr.startswith (dest g b) (OsPath.join b "") = true.
Proof.
  intros Hg. apply join_inside, contains_false_startswith.
  by apply replace_from_no_sep.
Qed.

Lemma real_dst_inside (t : FS) (src g b : string) :
  PyStr.contains g "/" = false ->
  PyStr.startswith (real_dst t src (dest g b)) (OsPath.join b "") = true.
Proof.
  intros Hg. unfold real_dst. destruct (isdir t (dest g b)).
  - eapply startswith_trans; [|by apply dest_inside].
    apply join_extends, contains_false_startswith, after_last_sep_no_sep.
  - by apply dest_inside.
Qed.

Lemma R9_on_match (g b : string) (w : World) :
  b ∈ bs -> PyStr.startswith g b = true ->
  entry_of cp (OsPath.join cp g) = Some g ->
  R9 w (world_of (on_match g b w)).
Proof.
  intros Hb Hstart Hg Hinv. revert Hinv.
  assert (Hgf : g <> f) by (intros ->; rewrite (Hnomatch b Hb) in Hstart; done).
  destruct (entry_of_Some _ _ _ Hg) as (_ & _ & Hsep).
  assert (Hsrc : OsPath.join cp g <> OsPath.join cp f).
  { intros E. rewrite E in Hg. congruence. }
  assert (Hin : forall q, PyStr.startswith q (OsPath.join b "") = true ->
                          q <> OsPath.join cp f).
  { intros q Hq ->. by rewrite (Houtside b Hb) in Hq. }
  change (R9 w (world_of (on_match g b w))).
  intros Hinv. destruct (Hinv) as (Hcp & _). revert Hinv.
  change (R9 w (world_of (on_match g b w))).
  unfold on_match. unfold bind at 1. unfold get_gl. rewrite Hcp.
  apply bind_rel; [apply _ | |].
  { apply R9_shutil_move; [done | by apply Hin, dest_inside |].
    intros t. by apply Hin, real_dst_inside. }
  intros _ w1 _. destruct (getHashes (gl w)); [|reflexivity].
  unfold on_getHashes.
  apply bind_rel; [apply _ | apply R9_ledger_bootstrap |]. intros _ w2 _.
  apply bind_rel; [apply _ | by apply R9_hashFile, Hin, dest_inside |].
  intros d w3 _.
  apply bind_rel; [apply _ | apply Inv_emit; exact Hgf |]. intros _ w4 _.
  apply R9_record.
Qed.

Lemma R9_for_b (g : string) (bs' : list string) (w : World) :
  bs' ⊆ bs ->
  entry_of cp (OsPath.join cp g) = Some g ->
  R9 w (world_of (for_b g bs' w)).
Proof.
  intros Hsub Hg. revert w.
  induction bs' as [|b bs' IH]; intros w; [reflexivity|].
  cbn [for_b]. apply bind_rel; [apply _ | apply Inv_emit; intros [] |].
  intros _ w1 _. apply bind_rel; [apply _ | |].
  - destruct (PyStr.startswith g b) eqn:Hstart; [|reflexivity].
    apply R9_on_match; [apply Hsub; by left | done..].
  - intros _ w2 _. apply IH. intros x Hx. apply Hsub. by right.
Qed.

Lemma R9_for_file (onlyfiles : list string) (w : World) :
  Forall (fun g => entry_of cp (OsPath.join cp g) = Some g) onlyfiles ->
  R9 w (world_of (for_file onlyfiles w)).
Proof.
  intros Hall. revert w.
  induction Hall as [|g rest Hg Hrest IH]; intros w; [reflexivity|].
  cbn [for_file]. apply bind_rel; [apply _ | | intros; apply IH].
  unfold bind, get_gl. intros Hinv. revert Hinv.
  change (R9 w (world_of (for_b g (path (gl w)) w))).
  intros Hinv. destruct (Hinv) as (_ & Hpath & _). revert Hinv.
  rewrite Hpath. by apply R9_for_b.
Qed.

Lemma R9_main (w : World) : R9 w (world_of (main w)).
Proof.
  intros Hinv. destruct (Hinv) as (Hcp & _). revert Hinv.
  change (R9 w (world_of (main w))).
  unfold main. unfold bind at 1 2. unfold get_gl, get_fs. rewrite Hcp.
  apply bind_rel; [apply _ | apply Inv_emit; intros [] |]. intros _ w1 _.
  destruct (isdir (fs w) cp); [|reflexivity].
  apply R9_for_file. apply Forall_forall. intros g Hg.
  by eapply regular_entries_entry.
Qed.

Lemma R9_reload (w : World) : R9 w (world_of (reload_isRunning w)).
Proof.
  unfold reload_isRunning. destruct (parser_read_world w) as (p & Hread & _).
  unfold bind at 1. rewrite Hread. unfold parser_get. unfold_prims.
  cbn [fs gl trace set_parser parser].
  assert (Hstep : R9 w (mkWorld (fs w) (set_parser p (gl w))
                          (trace w ++ [EvReadConfig]))).
  { etrans; [apply (Inv_emit EvReadConfig); intros []|]. cbn [world_of emit].
    by apply (Inv_gl (set_parser p (gl w))). }
  destruct (p !! PyStr.lower "isRunning"); cbn [world_of]; [|exact Hstep].
  etrans; [exact Hstep|].
  by apply (Inv_gl (set_isRunning _ (set_parser p (gl w)))
              (mkWorld (fs w) (set_parser p (gl w)) (trace w ++ [EvReadConfig]))).
Qed.

Lemma R9_sleep (secs : nat) (e : FS -> FS) (w : World) :
  (forall t, files (e t) !! OsPath.join cp f = files t !! OsPath.join cp f) ->
  R9 w (world_of (sleep secs e w)).
Proof.
  intros He. unfold sleep.
  apply bind_rel; [apply _ | apply Inv_emit; intros [] |]. intros _ w1 _.
  unfold_prims. cbn [world_of]. by apply Inv_fs.
Qed.

Lemma R9_iteration (e : FS -> FS) (w : World) :
  (forall t, files (e t) !! OsPath.join cp f = files t !! OsPath.join cp f) ->
  R9 w (world_of (iteration e w)).
Proof.
  intros He. unfold iteration.
  apply bind_rel; [apply _ | apply R9_reload |]. intros _ w1 _.
  apply bind_rel; [apply _ | apply R9_main |]. intros _ w2 _.
  by apply R9_sleep.
Qed.

Lemma R9_while (env : list (FS -> FS)) (w : World) :
  Forall (fun e : FS -> FS => forall t,
            files (e t) !! OsPath.join cp f = files t !! OsPath.join cp f) env ->
  R9 w (final_world (while_isRunning env w)).
Proof.
  intros Henv. revert w.
  induction Henv as [|e env He Henv IH]; intros w; cbn [while_isRunning].
  - destruct (isRunning (gl w)); reflexivity.
  - destruct (isRunning (gl w)); [|reflexivity].
    pose proof (R9_iteration e w He) as Hit.
    destruct (iteration e w) as [[] w1|ex w1]; cbn [world_of] in Hit.
    + etrans; [exact Hit | apply IH].
    + exact Hit.
Qed.

End Untouched.




(** * Further properties of the script *)

(** ** Start-up: bootstrap and settings (lines 46-78) *)

Lemma bind_Raise {A B} (m : M A) (k : A -> M B) (w w1 : World) (e : exn) :
  m w = Raise e w1 -> bind m k w = Raise e w1.
Proof. unfold bind. by intros ->. Qed.

Lemma parser_get_Ok (option v : string) (w : World) :
  parser (gl w) !! PyStr.lower option = Some v ->
  parser_get option w = Ok v w.
Proof. intros H. unfold parser_get. unfold_prims. by rewrite H. Qed.

Lemma parser_get_Raise (option : string) (w : World) :
  parser (gl w) !! PyStr.lower option = None ->
  parser_get option w = Raise ConfigParserError w.
Proof. intros H. unfold parser_get. unfold_prims. by rewrite H. Qed.

(** Lines 46-60 on a tree that has a config.ini: the settings are left as
    they are, filePaths.json is created if it is missing. *)
Lemma bootstrap_present (t : FS) (opts : gmap string string) :
  config_ini t = Some opts ->
  bind bootstrap_config (fun _ => bootstrap_paths) (mkWorld t initial_globals [])
  = Ok tt (mkWorld (mkFS (files t) (dirs t) (Some opts)
                         (Some (default ["empty"] (filePaths_json t)))
                         (fileHashes_json t))
                   initial_globals []).
Proof.
  destruct t as [fl ds ci fp fh]. cbn [config_ini]. intros ->.
  unfold bootstrap_config, bootstrap_paths. unfold_prims.
  cbn [fs gl trace config_ini filePaths_json files dirs fileHashes_json].
  by destruct fp.
Qed.

(** Lines 63-78 once the parser holds the four options. *)
Lemma read_settings_loaded (w : World) (opts : gmap string string)
    (cp hc gh ir : string) :
  config_ini (fs w) = Some opts ->
  (opts ∪ parser (gl w)) !! "currentpathname" = Some cp ->
  (opts ∪ parser (gl w)) !! "hashmethod" = Some hc ->
  (opts ∪ parser (gl w)) !! "gethashes" = Some gh ->
  (opts ∪ parser (gl w)) !! "isrunning" = Some ir ->
  read_settings w =
  Ok tt (mkWorld (fs w)
           (mkGlobals cp (path (gl w)) (hashStore (gl w)) (String.eqb ir "true")
              (String.eqb gh "true") hc (opts ∪ parser (gl w)) (hash_ (gl w)))
           (trace w ++ [EvReadConfig])).
Proof.
  intros Hcfg Hcp Hhc Hgh Hir. unfold read_settings.
  destruct (parser_read_world w) as (p & Hread & Hp).
  rewrite (bind_Ok _ _ _ _ _ Hread), (Hp _ Hcfg).
  set (w1 := mkWorld _ _ _).
  rewrite (bind_Ok _ _ _ _ _ (parser_get_Ok "currentPathName" cp w1 Hcp)).
  rewrite (bind_Ok _ _ _ _ _ (parser_get_Ok "hashMethod" hc w1 Hhc)).
  rewrite (bind_Ok _ _ _ _ _ (parser_get_Ok "getHashes" gh w1 Hgh)).
  rewrite (bind_Ok _ _ _ _ _ (parser_get_Ok "isRunning" ir w1 Hir)).
  reflexivity.
Qed.

(** The module-level [hash_] of lines 72-78 and the object [hashFile]
    creates select the same algorithm, although the first chain has no
    test for "MD5". *)
Lemma prepare_hash__algorithm (w : World) :
  exists w',
    prepare_hash_ w = Ok tt w' /\
    hash_ (gl w') = hashlib_new (algorithm_of (hashCode (gl w))) /\
    fs w' = fs w /\ trace w' = trace w /\
    currentPath (gl w') = currentPath (gl w) /\ path (gl w') = path (gl w) /\
    hashStore (gl w') = hashStore (gl w) /\
    isRunning (gl w') = isRunning (gl w) /\
    getHashes (gl w') = getHashes (gl w) /\
    hashCode (gl w') = hashCode (gl w) /\ parser (gl w') = parser (gl w).
Proof.
  unfold prepare_hash_. unfold_prims.
  eexists. split; [reflexivity|]. cbn [gl fs trace hash_ currentPath path
    hashStore isRunning getHashes hashCode parser].
  split_and!; try reflexivity. unfold algorithm_of.
  destruct (String.eqb (hashCode (gl w)) "MD5") eqn:E.
  - apply String.eqb_eq in E. by rewrite E.
  - by repeat destruct (String.eqb (hashCode (gl w)) _).
Qed.

(** X1.  Without a config.ini the script writes the default settings and
    starts from them: running, hashing with MD5, watching "Images".  The
    settings resource then holds the defaults, filePaths.json is created
    with the placeholder if it was missing too, and nothing else is
    touched before the initial sleep. *)
Theorem startup_bootstraps_defaults (e0 : FS -> FS) (t : FS) :
  config_ini t = None ->
  exists w,
    startup e0 (mkWorld t initial_globals []) = Ok tt w /\
    isRunning (gl w) = true /\ getHashes (gl w) = true /\
    hashCode (gl w) = "MD5" /\ currentPath (gl w) = "Images" /\
    path (gl w) = [] /\ hashStore (gl w) = [] /\
    fs w = e0 (mkFS (files t) (dirs t) (Some default_settings)
                    (Some (default ["empty"] (filePaths_json t)))
                    (fileHashes_json t)) /\
    trace w = [EvReadConfig; EvSleep 2].
Proof.
  destruct t as [fl ds ci fp fh]. cbn [config_ini]. intros ->.
  set (t1 := mkFS fl ds (Some default_settings) (Some (default ["empty"] fp)) fh).
  set (g1 := set_parser default_settings initial_globals).
  assert (Hboot : bind bootstrap_config (fun _ => bootstrap_paths)
                    (mkWorld (mkFS fl ds None fp fh) initial_globals [])
                  = Ok tt (mkWorld t1 g1 [])).
  { unfold bootstrap_config, bootstrap_paths. unfold_prims.
    cbn [fs gl trace config_ini filePaths_json]. by destruct fp. }
  unfold startup. rewrite <- bind_assoc, (bind_Ok _ _ _ _ _ Hboot).
  rewrite (bind_Ok _ _ _ _ _
             (read_settings_loaded (mkWorld t1 g1 []) default_settings
                "Images" "MD5" "true" "true" eq_refl eq_refl eq_refl eq_refl
                eq_refl)).
  eexists. split; [reflexivity|]. cbn. done.
Qed.

Lemma startup_bootstraps_defaults_witness :
  exists w,
    startup id (mkWorld (mkFS ∅ ∅ None None None) initial_globals []) = Ok tt w /\
    isRunning (gl w) = true /\ currentPath (gl w) = "Images" /\
    filePaths_json (fs w) = Some ["empty"].
Proof.
  destruct (startup_bootstraps_defaults id (mkFS ∅ ∅ None None None) eq_refl)
    as (w & Hrun & Hir & _ & _ & Hcp & _ & _ & Hfs & _).
  exists w. split; [exact Hrun|]. split; [exact Hir|]. split; [exact Hcp|].
  rewrite Hfs. reflexivity.
Defined.



(** X3.  A config.ini that lacks one of the four options is not repaired
    from the defaults: the script stops on the configparser error right
    after reading it, before the initial sleep, with the settings as they
    were, no prefix loaded and no directory created. *)
Theorem startup_missing_option_raises
    (e0 : FS -> FS) (env : list (FS -> FS)) (t : FS) (opts : gmap string string) :
  config_ini t = Some opts ->
  opts !! "currentpathname" = None \/ opts !! "hashmethod" = None \/
  opts !! "gethashes" = None \/ opts !! "isrunning" = None ->
  exists w,
    script e0 env t = Crashed ConfigParserError w /\
    fs w = mkFS (files t) (dirs t) (Some opts)
                (Some (default ["empty"] (filePaths_json t)))
                (fileHashes_json t) /\
    path (gl w) = [] /\ hashStore (gl w) = [] /\
    trace w = [EvReadConfig].
Proof.
  intros Hcfg Hmiss. unfold script, startup.
  rewrite <- bind_assoc, (bind_Ok _ _ _ _ _ (bootstrap_present t opts Hcfg)).
  set (t1 := mkFS _ _ _ _ _). unfold read_settings. rewrite bind_assoc.
  destruct (parser_read_world (mkWorld t1 initial_globals [])) as (p & Hread & Hp).
  rewrite (bind_Ok _ _ _ _ _ Hread). specialize (Hp opts eq_refl).
  cbn [fs gl trace parser initial_globals] in Hp.
  rewrite (right_id_L ∅ (∪)) in Hp. subst p.
  set (w1 := mkWorld _ _ _).
  assert (Hpar : parser (gl w1) = opts) by reflexivity.
  assert (Hend : exists w,
             Crashed ConfigParserError w1 = Crashed ConfigParserError w /\
             fs w = t1 /\ path (gl w) = [] /\ hashStore (gl w) = [] /\
             trace w = [EvReadConfig]).
  { exists w1. done. }
  destruct (opts !! "currentpathname") as [cp|] eqn:Hcp.
  2:{ rewrite bind_assoc.
      rewrite (bind_Raise _ _ _ _ _ (parser_get_Raise "currentPathName" w1 Hcp)).
      exact Hend. }
  rewrite bind_assoc.
  rewrite (bind_Ok _ _ _ _ _ (parser_get_Ok "currentPathName" cp w1 Hcp)).
  destruct (opts !! "hashmethod") as [hc|] eqn:Hhc.
  2:{ rewrite bind_assoc.
      rewrite (bind_Raise _ _ _ _ _ (parser_get_Raise "hashMethod" w1 Hhc)).
      exact Hend. }
  rewrite bind_assoc.
  rewrite (bind_Ok _ _ _ _ _ (parser_get_Ok "hashMethod" hc w1 Hhc)).
  destruct (opts !! "gethashes") as [gh|] eqn:Hgh.
  2:{ rewrite bind_assoc.
      rewrite (bind_Raise _ _ _ _ _ (parser_get_Raise "getHashes" w1 Hgh)).
      exact Hend. }
  rewrite bind_assoc.
  rewrite (bind_Ok _ _ _ _ _ (parser_get_Ok "getHashes" gh w1 Hgh)).
  destruct Hmiss as [?|[?|[?|Hir]]]; try congruence.
  rewrite bind_assoc.
  rewrite (bind_Raise _ _ _ _ _ (parser_get_Raise "isRunning" w1 Hir)).
  exact Hend.
Qed.

Lemma startup_missing_option_raises_witness :
  exists w,
    script id [id]
      (mkFS ∅ ∅ (Some (delete "hashmethod" default_settings)) None None)
    = Crashed ConfigParserError w /\
    trace w = [EvReadConfig].
Proof.
  destruct (startup_missing_option_raises id [id]
              (mkFS ∅ ∅ (Some (delete "hashmethod" default_settings)) None None)
              (delete "hashmethod" default_settings))
    as (w & Hrun & _ & _ & _ & Htr).
  - reflexivity.
  - right. left. vm_compute. reflexivity.
  - exists w. split; [exact Hrun | exact Htr].
Defined.

(** ** Loading the prefixes and creating the directories (lines 139-153) *)

Lemma isdir_mono (t t' : FS) (p : string) :
  dirs t ⊆ dirs t' -> isdir t p = true -> isdir t' p = true.
Proof.
  unfold isdir. intros Hsub H. apply bool_decide_eq_true in H.
  apply bool_decide_eq_true. by apply Hsub.
Qed.

Lemma exists_mono (t t' : FS) (p : string) :
  files t' = files t -> dirs t ⊆ dirs t' ->
  exists_ t p = true -> exists_ t' p = true.
Proof.
  unfold exists_, isfile. intros Hf Hd H. rewrite Hf.
  apply orb_true_iff in H as [H|H]; apply orb_true_iff; [by left|].
  right. by eapply isdir_mono.
Qed.

(** One [if not os.path.exists(a): os.makedirs(a)]: afterwards [a] exists,
    no file changed, no directory went away, and only the tree was
    written. *)
Lemma ensure_dir_Ok (a : string) (w : World) :
  PyStr.rstrip_sep a <> "" ->
  exists t',
    ensure_dir a w =
      Ok tt (mkWorld t' (gl w)
               (trace w ++ if exists_ (fs w) a then [] else [EvMakedirs a])) /\
    exists_ t' a = true /\ files t' = files (fs w) /\ dirs (fs w) ⊆ dirs t' /\
    (exists_ (fs w) a = true -> dirs t' = dirs (fs w)) /\
    config_ini t' = config_ini (fs w) /\
    filePaths_json t' = filePaths_json (fs w) /\
    fileHashes_json t' = fileHashes_json (fs w).
Proof.
  intros Hne. unfold ensure_dir. unfold_prims. cbn [fs gl trace].
  destruct (exists_ (fs w) a) eqn:Hex.
  - exists (fs w). rewrite app_nil_r. split; [by destruct w|]. done.
  - apply String.eqb_neq in Hne. rewrite Hne.
    eexists. split; [reflexivity|]. cbn [files dirs set_dirs config_ini
      filePaths_json fileHashes_json]. split_and!; try done.
    + unfold exists_, isdir. cbn [dirs]. apply orb_true_iff. right.
      apply bool_decide_eq_true. set_solver.
    + set_solver.
Qed.

Lemma for_a_Ok (ps : list string) (w : World) :
  Forall (fun a => PyStr.rstrip_sep a <> "") ps ->
  exists t' new,
    for_a ps w = Ok tt (mkWorld t' (gl w) (trace w ++ new)) /\
    Forall (fun a => exists_ t' a = true) ps /\
    files t' = files (fs w) /\ dirs (fs w) ⊆ dirs t' /\
    (Forall (fun a => exists_ (fs w) a = true) ps ->
       dirs t' = dirs (fs w) /\ new = []) /\
    config_ini t' = config_ini (fs w) /\
    filePaths_json t' = filePaths_json (fs w) /\
    fileHashes_json t' = fileHashes_json (fs w).
Proof.
  intros Hall. revert w. induction Hall as [|a ps Ha Hps IH]; intros w.
  - exists (fs w), []. rewrite app_nil_r. split; [by destruct w|]. done.
  - destruct (ensure_dir_Ok a w Ha)
      as (t1 & Hrun & Hex & Hf1 & Hd1 & Hsame1 & Hc1 & Hp1 & Hh1).
    cbn [for_a]. rewrite (bind_Ok _ _ _ _ _ Hrun).
    set (w1 := mkWorld _ _ _).
    destruct (IH w1) as (t2 & new & Hrun2 & Hex2 & Hf2 & Hd2 & Hsame2 & Hc2 & Hp2 & Hh2).
    cbn [fs gl trace w1] in *.
    exists t2, ((if exists_ (fs w) a then [] else [EvMakedirs a]) ++ new).
    split; [by rewrite Hrun2, app_assoc|].
    split_and!; try congruence.
    + apply Forall_cons. split; [|done].
      eapply exists_mono; [exact Hf2 | exact Hd2 | exact Hex].
    + by etrans.
    + intros [Hexa Hrest]%Forall_cons. specialize (Hsame1 Hexa).
      destruct Hsame2 as [Hd Hn].
      { eapply Forall_impl; [exact Hrest|]. intros x Hx. cbn beta in *.
        eapply exists_mono; [exact Hf1 | by rewrite Hsame1 | exact Hx]. }
      split; [congruence|]. by rewrite Hexa, Hn.
Qed.

Lemma load_paths_Ok (w : World) (pathData : list string) :
  filePaths_json (fs w) = Some pathData ->
  load_paths w =
  Ok tt (mkWorld (fs w) (set_path (path (gl w) ++ pathData) (gl w))
                 (trace w ++ [EvLoadPaths])).
Proof.
  intros H. unfold load_paths. unfold_prims. cbn [fs gl trace]. by rewrite H.
Qed.



(** Once a name without text has to be created, the loop over the
    prefixes raises. *)
Lemma for_a_empty_name (ps : list string) (w : World) :
  "" ∈ ps -> "" ∉ dirs (fs w) -> files (fs w) !! "" = None ->
  exists w',
    for_a ps w = Raise FileNotFoundError w' /\
    files (fs w') = files (fs w) /\ gl w' = gl w /\
    config_ini (fs w') = config_ini (fs w).
Proof.
  revert w. induction ps as [|a ps IH]; intros w Hin Hd Hf.
  { by apply elem_of_nil in Hin. }
  cbn [for_a]. unfold bind at 1. unfold ensure_dir at 1. unfold_prims.
  cbn [fs gl trace].
  destruct (exists_ (fs w) a) eqn:Hex.
  - apply elem_of_cons in Hin as [<-|Hin].
    { exfalso. unfold exists_, isfile, isdir in Hex. cbn in Hex.
      rewrite Hf in Hex. apply orb_true_iff in Hex as [Hex|Hex].
      - apply bool_decide_eq_true in Hex. by destruct Hex.
      - apply bool_decide_eq_true in Hex. done. }
    destruct (IH w Hin Hd Hf) as (w' & Hrun & ?). exists w'. by rewrite <- Hrun.
  - destruct (String.eqb (PyStr.rstrip_sep a) "") eqn:Hr.
    + eexists. split; [reflexivity|]. done.
    + apply String.eqb_neq in Hr.
      apply elem_of_cons in Hin as [<-|Hin]; [done|].
      set (w1 := mkWorld _ _ _).
      destruct (IH w1 Hin) as (w' & Hrun & Hfiles & Hgl & Hcfg).
      { subst w1. cbn [fs dirs set_dirs].
        intros [Hx%elem_of_singleton|Hx]%elem_of_union; [by apply Hr | by apply Hd]. }
      { exact Hf. }
      exists w'. split; [exact Hrun|]. done.
Qed.



(** ** The digest engine on whole files (lines 81-105) *)

(** X6.  Under each of the four names of the docstring, [hashFile] returns
    the digest, by the algorithm of that name, of the whole content of the
    file, whatever its length: the 4096-byte reads deliver every byte once
    and in order.  The call changes neither the tree nor a global. *)
Theorem hashFile_digests_whole_file
    (w : World) (fname : string) (data : list byte) (a : algorithm) :
  files (fs w) !! fname = Some data ->
  (hashCode (gl w), a) ∈
    [("MD5", MD5); ("SHA-1", SHA1); ("SHA-224", SHA224); ("SHA-256", SHA256)] ->
  exists w',
    hashFile fname w = Ok (Hex a data) w' /\
    fs w' = fs w /\ gl w' = gl w /\ trace w' = trace w ++ [EvHash fname].
Proof.
  intros Hf Hin. exists (mkWorld (fs w) (gl w) (trace w ++ [EvHash fname])).
  split; [|done]. rewrite (hashFile_readable _ _ _ Hf). do 2 f_equal.
  repeat (apply elem_of_cons in Hin as [Hin|Hin];
          [injection Hin as Hc ->; by rewrite Hc|]).
  by apply elem_of_nil in Hin.
Qed.

Lemma hashFile_digests_whole_file_witness :
  exists w',
    hashFile "foo/big.bin"
      (demo_world "Images" ["foo"] true "SHA-224"
         [("foo/big.bin", repeat x00%byte 5000)])
    = Ok (Hex SHA224 (repeat x00%byte 5000)) w'.
Proof.
  destruct (hashFile_digests_whole_file
              (demo_world "Images" ["foo"] true "SHA-224"
                 [("foo/big.bin", repeat x00%byte 5000)])
              "foo/big.bin" (repeat x00%byte 5000) SHA224)
    as (w' & Hrun & _).
  - vm_compute. reflexivity.
  - do 2 (apply elem_of_cons; right). apply elem_of_cons. by left.
  - exists w'. exact Hrun.
Defined.

(** ** What [main] does to the ledger and to everything else
       (lines 107-135) *)

Lemma shutil_move_gl (src dst : string) (w : World) :
  gl (world_of (shutil_move src dst w)) = gl w.
Proof.
  unfold shutil_move. unfold_prims. cbn [fs gl trace].
  repeat case_match; reflexivity.
Qed.

(** A relation that holds across the tests, the listing, every move and
    every pass through the body of [if getHashes:] holds across [main]. *)
Section MainRel.
Variable R : relation World.
Context `{!PreOrder R}.
Hypothesis R_test : forall file b w, R w (world_of (emit (EvStartswith file b) w)).
Hypothesis R_list : forall d w, R w (world_of (emit (EvListdir d) w)).
Hypothesis R_move : forall src dst w, R w (world_of (shutil_move src dst w)).
Hypothesis R_hash :
  forall file b w, getHashes (gl w) = true ->
                   R w (world_of (on_getHashes file b w)).

Lemma on_match_rel (file b : string) (w : World) :
  R w (world_of (on_match file b w)).
Proof.
  unfold on_match. unfold bind at 1. unfold get_gl.
  apply bind_rel; [done | apply R_move |]. intros [] w1 Hmv.
  destruct (getHashes (gl w)) eqn:Hgh; [|reflexivity].
  apply R_hash. pose proof (shutil_move_gl (OsPath.join (currentPath (gl w)) file)
                              (dest file b) w) as Hgl.
  rewrite Hmv in Hgl. cbn [world_of] in Hgl. by rewrite Hgl.
Qed.

Lemma for_b_rel (file : string) (bs : list string) (w : World) :
  R w (world_of (for_b file bs w)).
Proof.
  revert w. induction bs as [|b bs IH]; intros w; [reflexivity|].
  cbn [for_b]. apply bind_rel; [done | apply R_test |]. intros _ w1 _.
  apply bind_rel; [done | | intros; apply IH].
  destruct (PyStr.startswith file b); [apply on_match_rel | reflexivity].
Qed.

Lemma for_file_rel (onlyfiles : list string) (w : World) :
  R w (world_of (for_file onlyfiles w)).
Proof.
  revert w. induction onlyfiles as [|file rest IH]; intros w; [reflexivity|].
  cbn [for_file]. apply bind_rel; [done | | intros; apply IH].
  unfold bind, get_gl. apply for_b_rel.
Qed.

Lemma main_rel (w : World) : R w (world_of (main w)).
Proof.
  unfold main. unfold bind at 1 2. unfold get_gl, get_fs.
  apply bind_rel; [done | apply R_list |]. intros _ w1 _.
  destruct (isdir (fs w) (currentPath (gl w))); [apply for_file_rel | reflexivity].
Qed.

End MainRel.


#[local] Instance keeps_ledger_idle_preorder store ledger tr0 :
  PreOrder (keeps_ledger_idle store ledger tr0).
Proof.
  split; unfold keeps_ledger_idle; [intros w; tauto | intros w1 w2 w3; tauto].
Qed.

Lemma ledger_idle_emit store ledger tr0 (ev : event) (w : World) :
  is_digest_event ev = false ->
  keeps_ledger_idle store ledger tr0 w (world_of (emit ev w)).
Proof.
  intros Hev (Hgh & Hst & Hfile & new & Htr & Hnew).
  unfold ledger_idle, emit. cbn [fs gl trace world_of].
  split_and!; try done. exists (new ++ [ev]). split.
  - by rewrite Htr, app_assoc.
  - apply Forall_app. split; [done|]. by apply Forall_singleton.
Qed.

Lemma ledger_idle_move store ledger tr0 (src dst : string) (w : World) :
  keeps_ledger_idle store ledger tr0 w (world_of (shutil_move src dst w)).
Proof.
  unfold shutil_move.
  apply bind_rel; [apply _ | by apply ledger_idle_emit |]. intros _ w1 _.
  unfold_prims. cbn [fs gl trace].
  repeat case_match; try reflexivity.
  intros (Hgh & Hst & Hfile & Hnew). by unfold ledger_idle.
Qed.



#[local] Instance ledger_step_preorder : PreOrder ledger_step.
Proof.
  split.
  - intros w. by split_and!.
  - intros w1 w2 w3 (P1 & N1 & S1) (P2 & N2 & S2).
    split_and!; [by etrans | tauto | tauto].
Qed.

(** Nothing to do with the ledger: the mapping and the ledger file are
    the same. *)
Lemma ledger_step_same (w w' : World) :
  hashStore (gl w') = hashStore (gl w) ->
  fileHashes_json (fs w') = fileHashes_json (fs w) ->
  ledger_step w w'.
Proof.
  intros Hst Hfile. unfold ledger_step, ledger_synced. rewrite Hst, Hfile. done.
Qed.

Lemma ledger_step_move (src dst : string) (w : World) :
  ledger_step w (world_of (shutil_move src dst w)).
Proof.
  unfold shutil_move. unfold_prims. cbn [fs gl trace].
  repeat case_match; by apply ledger_step_same.
Qed.

Lemma ledger_step_on_getHashes (file b : string) (w : World) :
  ledger_step w (world_of (on_getHashes file b w)).
Proof.
  unfold on_getHashes. apply bind_rel; [apply _ | |].
  { unfold ledger_bootstrap. unfold_prims.
    destruct (fileHashes_json (fs w)) eqn:E; cbn [world_of];
      [by apply ledger_step_same|].
    split_and!; [done..|]. unfold ledger_synced. by rewrite E. }
  intros _ w1 _. apply bind_rel; [apply _ | |].
  { unfold hashFile. unfold_prims. cbn [fs gl trace].
    repeat case_match; by apply ledger_step_same. }
  intros d w2 _. apply bind_rel; [apply _ | by apply ledger_step_same |].
  intros _ w3 _. unfold record. unfold_prims. cbn [fs gl trace world_of].
  split_and!; cbn [gl fs hashStore set_hashStore].
  - rewrite dict_keys_update. case_bool_decide; [done | by apply prefix_app_r].
  - apply dict_update_NoDup.
  - done.
Qed.



(** ** One matched file, with its digest (lines 122-135) *)



(** ** Files that nothing matches, files that two prefixes match
       (lines 116-127) *)

Lemma for_b_no_match (file : string) (bs : list string) (w : World) :
  Forall (fun b => PyStr.startswith file b = false) bs ->
  for_b file bs w =
  Ok tt (mkWorld (fs w) (gl w) (trace w ++ map (EvStartswith file) bs)).
Proof.
  intros Hall. revert w. induction Hall as [|b bs Hb Hbs IH]; intros w.
  - cbn. rewrite app_nil_r. by destruct w.
  - cbn [for_b map]. unfold bind at 1. unfold emit at 1. rewrite Hb.
    unfold bind at 1. unfold ret at 1. rewrite IH. cbn [fs gl trace].
    by rewrite <- app_assoc.
Qed.



(** With the source gone, the first prefix that matches raises. *)
Lemma for_b_source_gone (file : string) (bs : list string) (w : World) :
  files (fs w) !! OsPath.join (currentPath (gl w)) file = None ->
  Exists (fun b => PyStr.startswith file b = true) bs ->
  exists e w',
    for_b file bs w = Raise e w' /\
    (e = FileNotFoundError \/ e = ShutilError) /\
    fs w' = fs w /\ gl w' = gl w.
Proof.
  intros Hgone Hex. revert w Hgone.
  induction bs as [|b bs IH]; intros w Hgone; [by apply Exists_nil in Hex|].
  cbn [for_b]. unfold bind at 1. unfold emit at 1.
  set (w0 := mkWorld _ _ _).
  destruct (PyStr.startswith file b) eqn:Hb.
  - unfold bind at 1. unfold on_match. unfold bind at 1. unfold get_gl at 1.
    unfold bind at 1. unfold shutil_move. unfold_prims.
    cbn [fs gl trace w0]. rewrite Hgone.
    destruct (isdir (fs w) (dest file b) && _);
      do 2 eexists; (split; [reflexivity|]); cbn [fs gl]; split; auto.
  - apply Exists_cons in Hex as [Hex|Hex]; [congruence|].
    unfold bind at 1. unfold ret at 1.
    destruct (IH Hex w0 Hgone) as (e & w' & Hrun & He & Hfs & Hgl).
    exists e, w'. done.
Qed.



(** ** Stripping the prefix (line 125) *)

Section ReplaceLength.
Import PyStr.

Lemma replace_from_length_le (old : string) (k : nat) (s : string) :
  String.length (replace_from old k s) <= String.length s.
Proof.
  revert k. induction s as [|c s IH]; intros k; [done|].
  cbn [replace_from String.length]. destruct k as [|k].
  - destruct old as [|d old'].
    + specialize (IH 0). cbn [String.length]. lia.
    + destruct (startswith (String c s) (String d old')).
      * specialize (IH (String.length old')). lia.
      * specialize (IH 0). cbn [String.length]. lia.
  - specialize (IH k). lia.
Qed.

(** Where there is an occurrence, something is deleted. *)
Lemma replace_shortens (s old : string) :
  old <> "" -> contains s old = true ->
  String.length (replace s old) < String.length s.
Proof.
  intros Hne. destruct old as [|d old']; [done|]. unfold replace.
  induction s as [|c s IH]; intros Hc; [done|].
  rewrite contains_cons in Hc. cbn [replace_from String.length].
  destruct (startswith (String c s) (String d old')) eqn:Hs.
  - pose proof (replace_from_length_le (String d old') (String.length old') s).
    lia.
  - cbn [orb] in Hc. specialize (IH Hc). cbn [String.length]. lia.
Qed.

End ReplaceLength.

(** X13.  For a file named "<P> <suffix>", the destination name is the
    suffix with every occurrence of "<P> " deleted from it as well; it is
    the suffix itself exactly when the suffix contains no "<P> ". *)
Theorem dest_name_of_prefixed (P suffix : string) :
  dest_name (P +:+ " " +:+ suffix) P = PyStr.replace suffix (P +:+ " ") /\
  (dest_name (P +:+ " " +:+ suffix) P = suffix <->
   PyStr.contains suffix (P +:+ " ") = false).
Proof.
  assert (Hne : P +:+ " " <> "") by (destruct P; discriminate).
  assert (Heq : dest_name (P +:+ " " +:+ suffix) P
                = PyStr.replace suffix (P +:+ " ")).
  { unfold dest_name. rewrite <- append_assoc. by apply replace_leading. }
  split; [exact Heq|]. rewrite Heq. split.
  - intros Hsame. destruct (PyStr.contains suffix (P +:+ " ")) eqn:Hc; [|done].
    pose proof (replace_shortens suffix (P +:+ " ") Hne Hc) as Hlt.
    rewrite Hsame in Hlt. lia.
  - apply replace_absent.
Qed.

(** ** The loop and the settings resource (lines 156-165) *)

Lemma file_error_only_bind {A B} (m : M A) (k : A -> M B) (w : World) :
  file_error_only (m w) ->
  (forall a w1, m w = Ok a w1 -> file_error_only (k a w1)) ->
  file_error_only (bind m k w).
Proof.
  intros Hm Hk. unfold bind. destruct (m w) as [a w1|e w1]; [by apply Hk | done].
Qed.

Lemma shutil_move_file_error (src dst : string) (w : World) :
  file_error_only (shutil_move src dst w).
Proof.
  unfold shutil_move. unfold_prims. cbn [fs gl trace].
  repeat case_match; done.
Qed.

Lemma on_getHashes_file_error (file b : string) (w : World) :
  file_error_only (on_getHashes file b w).
Proof.
  unfold on_getHashes. apply file_error_only_bind.
  { unfold ledger_bootstrap. unfold_prims. by case_match. }
  intros _ w1 _. apply file_error_only_bind.
  { unfold hashFile. unfold_prims. cbn [fs gl trace]. repeat case_match; done. }
  intros d w2 _. done.
Qed.

Lemma for_b_file_error (file : string) (bs : list string) (w : World) :
  file_error_only (for_b file bs w).
Proof.
  revert w. induction bs as [|b bs IH]; intros w; [done|].
  cbn [for_b]. apply file_error_only_bind; [done|]. intros _ w1 _.
  apply file_error_only_bind; [|intros; apply IH].
  destruct (PyStr.startswith file b); [|done].
  unfold on_match. apply file_error_only_bind; [done|]. intros g w2 _.
  apply file_error_only_bind; [apply shutil_move_file_error|]. intros _ w3 _.
  destruct (getHashes g); [apply on_getHashes_file_error | done].
Qed.

(** What [main] raises is an error of the file system, never one of the
    settings. *)
Lemma main_file_error (w : World) : file_error_only (main w).
Proof.
  unfold main. apply file_error_only_bind; [done|]. intros g w1 _.
  apply file_error_only_bind; [done|]. intros t w2 _.
  apply file_error_only_bind; [done|]. intros _ w3 _.
  destruct (isdir t (currentPath g)).
  - generalize (regular_entries t (currentPath g)). intros l. revert w3.
    induction l as [|file rest IH]; intros w3; [done|].
    cbn [for_file]. apply file_error_only_bind; [|intros; apply IH].
    apply file_error_only_bind; [done|]. intros g' w4 _. apply for_b_file_error.
  - cbn. by destruct (isfile t (currentPath g)).
Qed.

(** The reload when the parser already holds the option: a config.ini
    that is gone, or that lost the option, changes nothing. *)
Lemma reload_isRunning_holds (w : World) (v : string) :
  parser (gl w) !! "isrunning" = Some v ->
  exists v' p,
    reload_isRunning w =
      Ok tt (mkWorld (fs w) (set_isRunning (String.eqb v' "true")
                               (set_parser p (gl w)))
                     (trace w ++ [EvReadConfig])) /\
    p !! "isrunning" = Some v' /\
    (forall opts, config_ini (fs w) = Some opts ->
                  opts !! "isrunning" = None -> v' = v) /\
    (config_ini (fs w) = None -> v' = v /\ p = parser (gl w)).
Proof.
  intros Hv. unfold reload_isRunning, parser_read. unfold_prims.
  cbn [fs gl trace].
  destruct (config_ini (fs w)) as [opts|] eqn:Hcfg.
  - unfold parser_get. unfold_prims. cbn [fs gl trace set_parser parser].
    change (PyStr.lower "isRunning") with "isrunning".
    destruct (opts !! "isrunning") as [v'|] eqn:Ho.
    + rewrite (lookup_union_Some_l _ _ _ _ Ho).
      exists v', (opts ∪ parser (gl w)). split; [reflexivity|].
      split; [by apply lookup_union_Some_l|]. split; [congruence | done].
    + assert (Hu : (opts ∪ parser (gl w)) !! "isrunning" = Some v).
      { rewrite lookup_union_r by done. exact Hv. }
      rewrite Hu. exists v, (opts ∪ parser (gl w)).
      split; [reflexivity|]. done.
  - unfold parser_get. unfold_prims. cbn [fs gl trace].
    change (PyStr.lower "isRunning") with "isrunning". rewrite Hv.
    exists v, (parser (gl w)). split; [by destruct w as [t [] tr]|]. done.
Qed.




